(** * International impulse clock controller: model and properties

    A shallow embedding of [international_clock_daemon_web.py].

    The Python module keeps one global [STATE] object guarded by one
    [threading.Lock], drives two relays and mirrors part of the state in a
    JSON file.  All of these are fields of one [World] record here, and
    every Python function is a computation over that record which either
    returns, raises, or blocks forever on the lock.

    Readings of the clocks ([datetime.datetime.now()], [time.monotonic()])
    are inputs of the environment: a function that reads the wall clock once
    takes the value read as its argument [now]; the fast-set loop, which
    reads the clocks at every iteration, takes a schedule of readings.
    Durations are integers counted in milliseconds. *)

From Stdlib Require Import ZArith List String Bool Lia.
From Stdlib Require Import Ascii DecimalString.
Import ListNotations.
Open Scope Z_scope.

(** ** Calendar time *)

Record datetime : Type := mk_datetime {
  year : Z;
  month : Z;
  day : Z;
  hour : Z;
  minute : Z;
  second : Z
}.

(** [dt.replace(minute=m)] *)
Definition replace_minute (dt : datetime) (m : Z) : datetime :=
  mk_datetime (year dt) (month dt) (day dt) (hour dt) m (second dt).

Definition to_12h_minutes (dt : datetime) : Z :=
  ((hour dt * 60) + minute dt) mod 720.

(** The tuples [(Y,M,D,H,MIN)] and [(Y,M,D,H)] used as guards. *)
Definition minute_key_t : Type := Z * Z * Z * Z * Z.
Definition hour_key_t : Type := Z * Z * Z * Z.

Definition minute_key (now : datetime) : minute_key_t :=
  (year now, month now, day now, hour now, minute now).

Definition hour_key (now : datetime) : hour_key_t :=
  (year now, month now, day now, hour now).

Definition hour_key_eqb (a b : hour_key_t) : bool :=
  let '(y1, m1, d1, h1) := a in
  let '(y2, m2, d2, h2) := b in
  (y1 =? y2) && (m1 =? m2) && (d1 =? d2) && (h1 =? h2).

Definition minute_key_eqb (a b : minute_key_t) : bool :=
  let '(y1, m1, d1, h1, n1) := a in
  let '(y2, m2, d2, h2, n2) := b in
  (y1 =? y2) && (m1 =? m2) && (d1 =? d2) && (h1 =? h2) && (n1 =? n2).

(** [guard == key] where [guard] is [None] or a tuple. *)
Definition guard_is {K : Type} (eqb : K -> K -> bool) (guard : option K) (key : K) : bool :=
  match guard with
  | Some k => eqb k key
  | None => false
  end.

(** ** Configuration constants

    The durations keep their names; their values are in milliseconds. *)

Definition MINUTE_PULSE_WIDTH_SEC : Z := 1000.
Definition CORRECTION_PULSES : nat := 17.
Definition CORRECTION_INTERVAL_SEC : Z := 2000.
Definition CORRECTION_PULSE_WIDTH_SEC : Z := 500.
Definition FAST_SET_INTERVAL_SEC : Z := 2000.
Definition FAST_SET_PULSE_WIDTH_SEC : Z := 600.
Definition FAST_SET_MAX_PULSES : Z := 400.
Definition FAST_SET_MAX_SECONDS : Z := 40 * 60 * 1000.

(** ** Exceptions and the status text *)

Inductive RuntimeMsg : Type :=
| MsgTimeout    (* "FAST SET timeout reached" *)
| MsgPulseCap.  (* "FAST SET pulse cap reached (400)" *)

Inductive Exn : Type :=
| FileNotFoundError
| OtherError                 (* any other exception of [open], [json.load], [int] *)
| RuntimeError (m : RuntimeMsg).

(** The values [fast_set_status] takes; each constructor stands for the
    string written next to it, the arguments being the formatted numbers. *)
Inductive Status : Type :=
| StIdle                               (* "Idle" *)
| StStarting                           (* "Starting..." *)
| StWillStall (stall : Z)              (* "Dial is {stall} min fast: will STALL until aligned." *)
| StAligned                            (* "Already aligned (no action)." *)
| StRunning                            (* "FAST SET running (dynamic)..." *)
| StCancelled                          (* "FAST SET cancelled by user." *)
| StComplete (pulses_sent : Z)         (* "FAST SET complete (pulses sent: {pulses_sent})." *)
| StAdvancing (pulses_sent adv : Z)    (* "Advancing... pulses={pulses_sent}, remaining~{adv}" *)
| StError (e : Exn)                    (* "FAST SET error: {e}" *)
| StRequested                          (* "FAST SET requested..." *)
| StStopRequested.                     (* "STOP requested..." *)

(** ** The shared state *)

Record State : Type := mk_State {
  offset_minutes : Z;
  has_offset : bool;
  last_minute_tick : option minute_key_t;
  last_correction_hour : option hour_key_t;
  stall_remaining_minutes : Z;
  fast_set_requested : bool;
  fast_set_running : bool;
  fast_set_cancel_requested : bool;
  fast_set_status : Status
}.

(** [State()] *)
Definition State_default : State :=
  mk_State 0 false None None 0 false false false StIdle.

Definition set_offset_minutes (v : Z) (s : State) : State :=
  mk_State v (has_offset s) (last_minute_tick s) (last_correction_hour s)
    (stall_remaining_minutes s) (fast_set_requested s) (fast_set_running s)
    (fast_set_cancel_requested s) (fast_set_status s).

Definition set_has_offset (v : bool) (s : State) : State :=
  mk_State (offset_minutes s) v (last_minute_tick s) (last_correction_hour s)
    (stall_remaining_minutes s) (fast_set_requested s) (fast_set_running s)
    (fast_set_cancel_requested s) (fast_set_status s).

Definition set_last_minute_tick (v : option minute_key_t) (s : State) : State :=
  mk_State (offset_minutes s) (has_offset s) v (last_correction_hour s)
    (stall_remaining_minutes s) (fast_set_requested s) (fast_set_running s)
    (fast_set_cancel_requested s) (fast_set_status s).

Definition set_last_correction_hour (v : option hour_key_t) (s : State) : State :=
  mk_State (offset_minutes s) (has_offset s) (last_minute_tick s) v
    (stall_remaining_minutes s) (fast_set_requested s) (fast_set_running s)
    (fast_set_cancel_requested s) (fast_set_status s).

Definition set_stall_remaining_minutes (v : Z) (s : State) : State :=
  mk_State (offset_minutes s) (has_offset s) (last_minute_tick s) (last_correction_hour s)
    v (fast_set_requested s) (fast_set_running s)
    (fast_set_cancel_requested s) (fast_set_status s).

Definition set_fast_set_requested (v : bool) (s : State) : State :=
  mk_State (offset_minutes s) (has_offset s) (last_minute_tick s) (last_correction_hour s)
    (stall_remaining_minutes s) v (fast_set_running s)
    (fast_set_cancel_requested s) (fast_set_status s).

Definition set_fast_set_running (v : bool) (s : State) : State :=
  mk_State (offset_minutes s) (has_offset s) (last_minute_tick s) (last_correction_hour s)
    (stall_remaining_minutes s) (fast_set_requested s) v
    (fast_set_cancel_requested s) (fast_set_status s).

Definition set_fast_set_cancel_requested (v : bool) (s : State) : State :=
  mk_State (offset_minutes s) (has_offset s) (last_minute_tick s) (last_correction_hour s)
    (stall_remaining_minutes s) (fast_set_requested s) (fast_set_running s)
    v (fast_set_status s).

Definition set_fast_set_status (v : Status) (s : State) : State :=
  mk_State (offset_minutes s) (has_offset s) (last_minute_tick s) (last_correction_hour s)
    (stall_remaining_minutes s) (fast_set_requested s) (fast_set_running s)
    (fast_set_cancel_requested s) v.

(** ** The state file

    What [json.load] and the conversions of [restore_state] can meet in
    [STATE_FILE].  [bool(x)] accepts every JSON value, [int(x)] does not. *)

Inductive IntField : Type :=
| IntAbsent                  (* key missing: [data.get] gives the default *)
| IntValue (z : Z)           (* [int(x)] succeeds with [z] *)
| IntInvalid.                (* [int(x)] raises *)

Inductive FileContent : Type :=
| FileMissing                                (* [open] raises FileNotFoundError *)
| FileCorrupt                                (* unreadable, not JSON, or not an object *)
| FileData (offset_field : IntField) (has_offset_field : option bool).

(** ** Hardware events *)

Inductive HwEvent : Type :=
| PulseA (width : Z)
| PulseB (width : Z)
| PulseAB (width : Z).

(** ** The world: state, lock, relays, file, and the pulses emitted so far *)

Record World : Type := mk_World {
  STATE : State;
  LOCK : bool;                 (* [true] while the lock is held *)
  A_RELAY : bool;              (* [true] while the relay is energised *)
  B_RELAY : bool;
  STATE_FILE : FileContent;
  disk_writable : bool;        (* does [open(STATE_FILE, "w")] succeed? *)
  pulses : list HwEvent        (* oldest first *)
}.

Definition set_STATE (s : State) (w : World) : World :=
  mk_World s (LOCK w) (A_RELAY w) (B_RELAY w) (STATE_FILE w) (disk_writable w) (pulses w).

Definition set_LOCK (b : bool) (w : World) : World :=
  mk_World (STATE w) b (A_RELAY w) (B_RELAY w) (STATE_FILE w) (disk_writable w) (pulses w).

Definition set_relays (a b : bool) (w : World) : World :=
  mk_World (STATE w) (LOCK w) a b (STATE_FILE w) (disk_writable w) (pulses w).

Definition set_STATE_FILE (f : FileContent) (w : World) : World :=
  mk_World (STATE w) (LOCK w) (A_RELAY w) (B_RELAY w) f (disk_writable w) (pulses w).

Definition emit (e : HwEvent) (w : World) : World :=
  mk_World (STATE w) (LOCK w) (A_RELAY w) (B_RELAY w) (STATE_FILE w) (disk_writable w)
    (pulses w ++ [e]).

(** ** Computations *)

Inductive Outcome (A : Type) : Type :=
| Returns (a : A) (w : World)      (* normal return *)
| Raises (e : Exn) (w : World)     (* an exception propagates *)
| Blocks (w : World).              (* the thread waits for a lock it holds itself *)

Arguments Returns {A} a w.
Arguments Raises {A} e w.
Arguments Blocks {A} w.

Definition M (A : Type) : Type := World -> Outcome A.

Definition ret {A : Type} (a : A) : M A := fun w => Returns a w.

Definition bind {A B : Type} (m : M A) (f : A -> M B) : M B :=
  fun w =>
    match m w with
    | Returns a w' => f a w'
    | Raises e w' => Raises e w'
    | Blocks w' => Blocks w'
    end.

Declare Scope py_scope.
Delimit Scope py_scope with py.
Notation "x <- m ;; k" := (bind m (fun x => k))
  (at level 61, m at next level, right associativity) : py_scope.
Notation "m ;; k" := (bind m (fun _ => k))
  (at level 61, right associativity) : py_scope.
Open Scope py_scope.

Definition raise {A : Type} (e : Exn) : M A := fun w => Raises e w.

Definition get_state : M State := fun w => Returns (STATE w) w.

Definition modify_state (f : State -> State) : M unit :=
  fun w => Returns tt (set_STATE (f (STATE w)) w).

(** [with LOCK: body].  [threading.Lock] is not reentrant: acquiring it in
    the thread that holds it never returns.  Leaving the block, by return or
    by exception, releases the lock. *)
Definition with_LOCK {A : Type} (body : M A) : M A :=
  fun w =>
    if LOCK w then Blocks w
    else
      match body (set_LOCK true w) with
      | Returns a w' => Returns a (set_LOCK false w')
      | Raises e w' => Raises e (set_LOCK false w')
      | Blocks w' => Blocks w'
      end.

(** [except Exception as e: handler], applied to the outcome of the [try] body. *)
Definition except_with {A : Type} (handler : Exn -> M A) (o : Outcome A) : Outcome A :=
  match o with
  | Raises e w => handler e w
  | _ => o
  end.

(** [finally: fin], applied to the outcome of what precedes it. *)
Definition finally_with {A : Type} (fin : M unit) (o : Outcome A) : Outcome A :=
  match o with
  | Returns a w =>
      match fin w with
      | Returns _ w' => Returns a w'
      | Raises e w' => Raises e w'
      | Blocks w' => Blocks w'
      end
  | Raises e w =>
      match fin w with
      | Returns _ w' => Raises e w'
      | Raises e' w' => Raises e' w'
      | Blocks w' => Blocks w'
      end
  | Blocks w => Blocks w
  end.

Definition try_except {A : Type} (body : M A) (handler : Exn -> M A) : M A :=
  fun w => except_with handler (body w).

(** ** Relays *)

Definition all_relays_off : M unit :=
  fun w => Returns tt (set_relays false false w).

(** [relay.on(); time.sleep(width_sec); relay.off()]: one pulse is recorded
    and the relay is off when the call returns. *)
Definition pulse_a (width_sec : Z) : M unit :=
  fun w => Returns tt (emit (PulseA width_sec) (set_relays false (B_RELAY w) w)).

Definition pulse_b (width_sec : Z) : M unit :=
  fun w => Returns tt (emit (PulseB width_sec) (set_relays (A_RELAY w) false w)).

Definition pulse_ab (width_sec : Z) : M unit :=
  fun w => Returns tt (emit (PulseAB width_sec) (set_relays false false w)).

(** ** Persistence *)

(** [with open(STATE_FILE, "w") as f: json.dump(data, f, indent=2)] *)
Definition json_dump (data : FileContent) : M unit :=
  fun w =>
    if disk_writable w
    then Returns tt (set_STATE_FILE data w)
    else Raises OtherError w.

(** [with open(STATE_FILE, "r") as f: data = json.load(f)], giving the two
    entries that [restore_state] looks up. *)
Definition json_load : M (IntField * option bool) :=
  fun w =>
    match STATE_FILE w with
    | FileMissing => Raises FileNotFoundError w
    | FileCorrupt => Raises OtherError w
    | FileData offset_field has_offset_field => Returns (offset_field, has_offset_field) w
    end.

(** [int(data.get("offset_minutes", 0))] *)
Definition int_of_field (x : IntField) : M Z :=
  match x with
  | IntAbsent => ret 0
  | IntValue z => ret z
  | IntInvalid => raise OtherError
  end.

(** [bool(data.get("has_offset", False))] *)
Definition bool_of_field (x : option bool) : bool :=
  match x with
  | Some b => b
  | None => false
  end.

(** The entry [saved_at] is written but never read back; it is left out. *)
Definition persist_state : M unit :=
  try_except
    (data <- with_LOCK
       (s <- get_state ;;
        ret (FileData (IntValue (offset_minutes s)) (Some (has_offset s)))) ;;
     json_dump data)
    (fun _ => ret tt).

Definition restore_state : M unit :=
  try_except
    (data <- json_load ;;
     with_LOCK
       (z <- int_of_field (fst data) ;;
        modify_state (set_offset_minutes (z mod 720)) ;;
        modify_state (set_has_offset (bool_of_field (snd data)))))
    (fun e =>
       match e with
       | FileNotFoundError => ret tt      (* "State file not found (first run)" *)
       | _ => ret tt                      (* "WARNING: restore failed" *)
       end).

(** ** DialOffsetModel *)

Definition current_estimated_dial_minutes (now : datetime) : M Z :=
  let sys_m := to_12h_minutes now in
  with_LOCK
    (s <- get_state ;;
     if negb (has_offset s)
     then ret sys_m
     else ret ((sys_m + offset_minutes s) mod 720)).

Definition set_dial_reading (hh mm : Z) (now : datetime) : M unit :=
  let sys_m := to_12h_minutes now in
  let dial_m := ((hh * 60) + mm) mod 720 in
  let offset := (dial_m - sys_m) mod 720 in
  with_LOCK
    (modify_state (set_offset_minutes offset) ;;
     modify_state (set_has_offset true) ;;
     modify_state (set_stall_remaining_minutes 0)) ;;
  persist_state.

(** ** ConvergencePlanner *)

Definition compute_fast_or_stall_plan (now : datetime) : M (Z * Z) :=
  let sys_m := to_12h_minutes now in
  dial_m <- current_estimated_dial_minutes now ;;
  let delta_forward := (sys_m - dial_m) mod 720 in
  if delta_forward =? 0 then ret (0, 0)
  else if delta_forward >? 360 then ret (720 - delta_forward, 0)
  else ret (0, delta_forward).

Definition update_offset_after_stall_or_advance (stalled advanced : Z) : M unit :=
  if (stalled =? 0) && (advanced =? 0) then ret tt
  else
    go_on <- with_LOCK
      (s <- get_state ;;
       if negb (has_offset s) then ret false
       else
         modify_state (set_offset_minutes ((offset_minutes s - stalled + advanced) mod 720)) ;;
         ret true) ;;
    if go_on then persist_state else ret tt.

(** ** NormalCadenceScheduler *)

(** [for i in range(n): body(i)] *)
Fixpoint for_range_from (i : nat) (n : nat) (body : nat -> M unit) : M unit :=
  match n with
  | O => ret tt
  | S n' => body i ;; for_range_from (S i) n' body
  end.

Definition for_range (n : nat) (body : nat -> M unit) : M unit :=
  for_range_from 0 n body.

(** The waiting loop before each pulse only sleeps until the deadline
    [start + i * CORRECTION_INTERVAL_SEC]; it changes nothing in the world. *)
Definition run_correction_burst_once_per_hour (now : datetime) : M unit :=
  if negb (minute now =? 59) then ret tt
  else
    let hour_key := hour_key now in
    returned <- with_LOCK
      (s <- get_state ;;
       if guard_is hour_key_eqb (last_correction_hour s) hour_key then ret true
       else modify_state (set_last_correction_hour (Some hour_key)) ;; ret false) ;;
    if (returned : bool) then ret tt
    else for_range CORRECTION_PULSES (fun _ => pulse_a CORRECTION_PULSE_WIDTH_SEC).

Definition minute_tick_actions (now : datetime) : M unit :=
  let minute_key := minute_key now in
  returned <- with_LOCK
    (s <- get_state ;;
     if guard_is minute_key_eqb (last_minute_tick s) minute_key then ret true
     else
       modify_state (set_last_minute_tick (Some minute_key)) ;;
       s <- get_state ;;
       if fast_set_running s then ret true
       else if stall_remaining_minutes s >? 0 then
         modify_state (fun s => set_stall_remaining_minutes (stall_remaining_minutes s - 1) s) ;;
         update_offset_after_stall_or_advance 1 0 ;;
         (if minute now =? 59 then run_correction_burst_once_per_hour now else ret tt) ;;
         ret true
       else ret false) ;;
  if (returned : bool) then ret tt
  else
    pulse_a MINUTE_PULSE_WIDTH_SEC ;;
    (if (0 <=? minute now) && (minute now <=? 49)
     then pulse_b MINUTE_PULSE_WIDTH_SEC else ret tt) ;;
    (if minute now =? 59 then run_correction_burst_once_per_hour now else ret tt).

(** ** Control surface: the request handlers *)

Definition fast_set : M unit :=
  with_LOCK
    (modify_state (set_fast_set_requested true) ;;
     modify_state (set_fast_set_cancel_requested false) ;;
     modify_state (set_fast_set_status StRequested)).

Definition stop_correction : M unit :=
  with_LOCK
    (modify_state (set_fast_set_cancel_requested true) ;;
     modify_state (set_fast_set_requested false) ;;
     modify_state (set_fast_set_status StStopRequested)) ;;
  all_relays_off.

(** [w_form] is the parsed form field, [None] when [float] raises. *)
Definition pulse_test (which : string) (w_form : option Z) (now : datetime) : M unit :=
  let w := match w_form with Some x => x | None => 1000 end in
  let w := Z.max 50 (Z.min 5000 w) in
  if String.eqb which "A" then pulse_a w
  else if String.eqb which "B" then pulse_b w
  else if String.eqb which "AB" then pulse_ab w
  else if String.eqb which "CORR"
       then run_correction_burst_once_per_hour (replace_minute now 59)
  else ret tt.

(** ** ConvergenceController *)

(** Requests the web thread serves while the daemon thread is inside a
    fast-set session.  Each handler runs between two critical sections of
    the daemon thread. *)
Inductive WebReq : Type :=
| ReqFastSet
| ReqStop
| ReqSetDial (hh mm : Z) (now : datetime).

Definition serve (r : WebReq) : M unit :=
  match r with
  | ReqFastSet => fast_set
  | ReqStop => stop_correction
  | ReqSetDial hh mm now => set_dial_reading hh mm now
  end.

Fixpoint serve_all (rs : list WebReq) : M unit :=
  match rs with
  | [] => ret tt
  | r :: rs' => serve r ;; serve_all rs'
  end.

(** What the environment supplies to one iteration of the [while True] loop. *)
Record Tick : Type := mk_Tick {
  requests : list WebReq;      (* served since the previous iteration *)
  elapsed : Z;                 (* [time.monotonic() - start] *)
  wall : datetime              (* [datetime.datetime.now()] inside the planner *)
}.

Record Schedule : Type := mk_Schedule {
  plan_now : datetime;         (* the clock read by the plan before the loop *)
  ticks : nat -> Tick
}.

Inductive Ctl : Type :=
| Continue
| Return.

(** The statements of the [try] block that precede the loop. *)
Definition fast_set_prologue (now : datetime) : M Ctl :=
  p <- compute_fast_or_stall_plan now ;;
  let '(stall, adv) := p in
  if stall >? 0 then
    with_LOCK
      (modify_state (set_stall_remaining_minutes stall) ;;
       modify_state (set_fast_set_status (StWillStall stall))) ;;
    ret Return
  else if adv =? 0 then
    with_LOCK (modify_state (set_fast_set_status StAligned)) ;;
    ret Return
  else
    with_LOCK (modify_state (set_fast_set_status StRunning)) ;;
    ret Continue.

(** One iteration of the loop. *)
Definition fast_set_iteration (t : Tick) (pulses_sent : Z) : M Ctl :=
  (if elapsed t >? FAST_SET_MAX_SECONDS
   then raise (RuntimeError MsgTimeout) else ret tt) ;;
  cancelled <- with_LOCK
    (s <- get_state ;;
     if fast_set_cancel_requested s then
       modify_state (set_fast_set_status StCancelled) ;;
       all_relays_off ;;
       ret true
     else ret false) ;;
  if (cancelled : bool) then ret Return
  else
    p <- compute_fast_or_stall_plan (wall t) ;;
    let '(stall, adv) := p in
    if stall >? 0 then
      with_LOCK
        (modify_state (set_stall_remaining_minutes stall) ;;
         modify_state (set_fast_set_status (StWillStall stall))) ;;
      ret Return
    else if adv =? 0 then
      with_LOCK (modify_state (set_fast_set_status (StComplete pulses_sent))) ;;
      ret Return
    else if pulses_sent >=? FAST_SET_MAX_PULSES then
      raise (RuntimeError MsgPulseCap)
    else
      pulse_ab FAST_SET_PULSE_WIDTH_SEC ;;
      update_offset_after_stall_or_advance 0 1 ;;
      let pulses_sent := pulses_sent + 1 in
      (if pulses_sent mod 10 =? 0
       then with_LOCK (modify_state (set_fast_set_status (StAdvancing pulses_sent adv)))
       else ret tt) ;;
      ret Continue.

(** The loop; [pulses_sent] counts the iterations completed so far, and
    [None] means that [fuel] iterations did not reach the end. *)
Fixpoint fast_set_loop (fuel : nat) (sched : nat -> Tick) (pulses_sent : nat)
    (w : World) : option (Outcome unit) :=
  match fuel with
  | O => None
  | S fuel' =>
      match (serve_all (requests (sched pulses_sent)) ;;
             fast_set_iteration (sched pulses_sent) (Z.of_nat pulses_sent)) w with
      | Returns Continue w' => fast_set_loop fuel' sched (S pulses_sent) w'
      | Returns Return w' => Some (Returns tt w')
      | Raises e w' => Some (Raises e w')
      | Blocks w' => Some (Blocks w')
      end
  end.

Definition fast_set_try (fuel : nat) (sched : Schedule) (w : World) : option (Outcome unit) :=
  match fast_set_prologue (plan_now sched) w with
  | Returns Continue w' => fast_set_loop fuel (ticks sched) 0 w'
  | Returns Return w' => Some (Returns tt w')
  | Raises e w' => Some (Raises e w')
  | Blocks w' => Some (Blocks w')
  end.

(** The first critical section: is there a request to claim? *)
Definition fast_set_claim : M bool :=
  with_LOCK
    (s <- get_state ;;
     if negb (fast_set_requested s) || fast_set_running s then ret false
     else
       modify_state (set_fast_set_requested false) ;;
       modify_state (set_fast_set_running true) ;;
       modify_state (set_fast_set_cancel_requested false) ;;
       modify_state (set_fast_set_status StStarting) ;;
       ret true).

Definition fast_set_except (e : Exn) : M unit :=
  with_LOCK (modify_state (set_fast_set_status (StError e))).

Definition fast_set_finally : M unit :=
  with_LOCK
    (modify_state (set_fast_set_running false) ;;
     modify_state (set_fast_set_cancel_requested false)) ;;
  all_relays_off.

Definition maybe_handle_fast_set (fuel : nat) (sched : Schedule) (w : World)
    : option (Outcome unit) :=
  match fast_set_claim w with
  | Returns true w1 =>
      match fast_set_try fuel sched w1 with
      | Some o => Some (finally_with fast_set_finally (except_with fast_set_except o))
      | None => None
      end
  | Returns false w1 => Some (Returns tt w1)
  | Raises e w1 => Some (Raises e w1)
  | Blocks w1 => Some (Blocks w1)
  end.

(** ** Runs: the operations of both threads, one after the other *)

Inductive Op : Type :=
| OpRestore                                       (* [restore_state()] *)
| OpPoll (fuel : nat) (sched : Schedule)          (* [maybe_handle_fast_set()] *)
| OpTick (now : datetime)                         (* [minute_tick_actions(now)] *)
| OpUpdate (stalled advanced : Z)                 (* [update_offset_after_stall_or_advance] *)
| OpSetDial (hh mm : Z) (now : datetime)          (* POST /set *)
| OpFastSet                                       (* POST /fastset *)
| OpStop                                          (* POST /stop *)
| OpPulseTest (which : string) (w_form : option Z) (now : datetime).   (* POST /pulse *)

Definition run_op (op : Op) (w : World) : option (Outcome unit) :=
  match op with
  | OpRestore => Some (restore_state w)
  | OpPoll fuel sched => maybe_handle_fast_set fuel sched w
  | OpTick now => Some (minute_tick_actions now w)
  | OpUpdate stalled advanced => Some (update_offset_after_stall_or_advance stalled advanced w)
  | OpSetDial hh mm now => Some (set_dial_reading hh mm now w)
  | OpFastSet => Some (fast_set w)
  | OpStop => Some (stop_correction w)
  | OpPulseTest which w_form now => Some (pulse_test which w_form now w)
  end.

(** A run stops at the first operation that does not return. *)
Fixpoint run_ops (ops : list Op) (w : World) : option (Outcome unit) :=
  match ops with
  | [] => Some (Returns tt w)
  | op :: ops' =>
      match run_op op w with
      | Some (Returns _ w') => run_ops ops' w'
      | other => other
      end
  end.

(** The world an outcome ends in. *)
Definition final_world {A : Type} (o : Outcome A) : World :=
  match o with
  | Returns _ w => w
  | Raises _ w => w
  | Blocks w => w
  end.

(** ** Clock texts *)

Inductive ValueErrorMsg : Type :=
| ErrFormat      (* "Time must be HH:MM" *)
| ErrInt         (* the message of [int] itself *)
| ErrHour        (* "HH must be 0..23" *)
| ErrMinute.     (* "MM must be 0..59" *)

Inductive Parsed : Type :=
| ParsedTime (h m : Z)
| ValueError (msg : ValueErrorMsg).

(** [":" in s] and [s.split(":", 1)] at once: the text before the first
    colon and the text after it, or [None] without a colon.  The byte of the
    colon occurs in no multi-byte character, so bytes can be searched. *)
Fixpoint split_colon (s : string) : option (string * string) :=
  match s with
  | EmptyString => None
  | String c rest =>
      if Ascii.eqb c ":" then Some (EmptyString, rest)
      else
        match split_colon rest with
        | Some (before, after) => Some (String c before, after)
        | None => None
        end
  end.

(** What a request handler hands back to the web server. *)
Inductive Response : Type :=
| ServerError (msg : ValueErrorMsg)     (* the exception leaves the view function *)
| Served (o : Outcome unit).

Section PythonBuiltins.
(** [str.strip] and [int] on a string are the interpreter's; the functions
    below are read for every behaviour these two may have.  [py_int] gives
    [None] where [int] raises ValueError. *)
Variable py_strip : string -> string.
Variable py_int : string -> option Z.

Definition parse_hhmm (s : string) : Parsed :=
  let s := py_strip s in
  match split_colon s with
  | None => ValueError ErrFormat
  | Some (hh, mm) =>
      match py_int hh with
      | None => ValueError ErrInt
      | Some h =>
          match py_int mm with
          | None => ValueError ErrInt
          | Some m =>
              if negb ((0 <=? h) && (h <=? 23)) then ValueError ErrHour
              else if negb ((0 <=? m) && (m <=? 59)) then ValueError ErrMinute
              else ParsedTime h m
          end
      end
  end.

(** POST /set; [form_hhmm] is the form field, [None] when it is absent. *)
Definition set_dial (form_hhmm : option string) (now : datetime) (w : World) : Response :=
  let hhmm := py_strip (match form_hhmm with Some x => x | None => EmptyString end) in
  match parse_hhmm hhmm with
  | ValueError msg => ServerError msg
  | ParsedTime h m => Served (set_dial_reading h m now w)
  end.
End PythonBuiltins.

(** [f"{n:02d}"]: the decimal digits, with a zero in front when that makes
    fewer than two characters. *)
Definition fmt_02d (n : Z) : string :=
  let digits := NilZero.string_of_int (Z.to_int n) in
  if (String.length digits <? 2)%nat then String "0" digits else digits.

Definition minutes_to_hhmm_12h (m : Z) : string :=
  let m := m mod 720 in
  let hh := (m / 60) mod 12 in
  let mm := m mod 60 in
  let display_h := if hh =? 0 then 12 else hh in
  (fmt_02d display_h ++ ":" ++ fmt_02d mm)%string.

(** ** The status page *)

(** The values handed to the template. *)
Record StatusView : Type := mk_StatusView {
  view_sys_time : datetime;
  view_dial_time : string;
  view_offset : Z;
  view_has_offset : bool;
  view_stall : Z;
  view_fs_running : bool;
  view_fs_status : Status
}.

(** GET / *)
Definition index (now : datetime) : M StatusView :=
  dial_m <- current_estimated_dial_minutes now ;;
  view <- with_LOCK
    (s <- get_state ;;
     ret (mk_StatusView now (minutes_to_hhmm_12h dial_m)
            (if has_offset s then offset_minutes s else 0)
            (has_offset s) (stall_remaining_minutes s)
            (fast_set_running s) (fast_set_status s))) ;;
  ret view.

(** ** Daemon loop *)

(** The statements of [daemon_loop] before its [while True]. *)
Definition daemon_startup : M unit :=
  restore_state ;;
  all_relays_off.

(** One turn of the [while True] loop: [now] is the clock read after
    [sleep_until_next_second()]. *)
Definition daemon_iteration (fuel : nat) (sched : Schedule) (now : datetime) (w : World)
    : option (Outcome unit) :=
  match maybe_handle_fast_set fuel sched w with
  | Some (Returns _ w') =>
      Some ((if second now =? 0 then minute_tick_actions now else ret tt) w')
  | other => other
  end.

(** ** Vocabulary of the statements *)

(** The invariant of the data model. *)
Definition offset_normalized (w : World) : Prop :=
  0 <= offset_minutes (STATE w) < 720.

(** One correction burst, as it appears among the emitted pulses. *)
Definition correction_burst : list HwEvent :=
  repeat (PulseA CORRECTION_PULSE_WIDTH_SEC) CORRECTION_PULSES.

Definition is_correction_pulse (e : HwEvent) : bool :=
  match e with
  | PulseA width => width =? CORRECTION_PULSE_WIDTH_SEC
  | _ => false
  end.

Definition correction_pulses (w : World) : nat :=
  List.length (filter is_correction_pulse (pulses w)).

(** The budget argument for the hourly burst: the correction pulses already
    emitted, plus one burst if the guard does not yet hold the hour [H],
    stay below [N]. *)
Definition burst_budget (H : hour_key_t) (N : nat) (w : World) : Prop :=
  (correction_pulses w +
   (if guard_is hour_key_eqb (last_correction_hour (STATE w)) H
    then 0 else CORRECTION_PULSES) <= N)%nat.

(** [update_offset_after_stall_or_advance(stalled=0, advanced=1)], [n] times. *)
Definition advance_times (n : nat) : M unit :=
  for_range n (fun _ => update_offset_after_stall_or_advance 0 1).

(** [minute_tick_actions] called once for each reading of the list. *)
Fixpoint run_ticks (nows : list datetime) : M unit :=
  match nows with
  | [] => ret tt
  | now :: nows' => minute_tick_actions now ;; run_ticks nows'
  end.

Definition is_fast_set_request (op : Op) : bool :=
  match op with
  | OpFastSet => true
  | _ => false
  end.

Definition is_poll (op : Op) : bool :=
  match op with
  | OpPoll _ _ => true
  | _ => false
  end.


(** A freshly started process: [State()], relays off, no state file. *)
Definition World_initial : World :=
  mk_World State_default false false false FileMissing true [].

(** A quiescent world around a given state. *)
Definition World_with (s : State) : World :=
  mk_World s false false false FileMissing true [].

(** The state after the operator has declared the dial [off] minutes ahead. *)
Definition State_with_offset (off : Z) : State :=
  set_has_offset true (set_offset_minutes off State_default).

Definition midnight : datetime := mk_datetime 2024 1 1 0 0 0.

(** Lock discipline: from a free lock the computation neither blocks nor
    leaves the lock held. *)
Definition unlocked_outcome {A : Type} (o : Outcome A) : Prop :=
  match o with
  | Returns _ w' => LOCK w' = false
  | Raises _ w' => LOCK w' = false
  | Blocks _ => False
  end.

Definition lock_safe {A : Type} (m : M A) : Prop :=
  forall w, LOCK w = false -> unlocked_outcome (m w).

(** The computation never touches the lock. *)
Definition lock_neutral {A : Type} (m : M A) : Prop :=
  forall w,
    match m w with
    | Returns _ w' => LOCK w' = LOCK w
    | Raises _ w' => LOCK w' = LOCK w
    | Blocks _ => False
    end.

(** [P] holds in the world a computation ends in whenever it held at the start. *)
Definition preserves {A : Type} (P : World -> Prop) (m : M A) : Prop :=
  forall w, P w -> P (final_world (m w)).

(** [P] does not look at the lock. *)
Definition lock_blind (P : World -> Prop) : Prop :=
  forall b w, P (set_LOCK b w) <-> P w.


(** The offset is the value [c] it started with, or it is normalized. *)
Definition offset_kept_or_normalized (c : Z) (w : World) : Prop :=
  offset_minutes (STATE w) = c \/ offset_normalized w.

(** The hourly burst of 10 o'clock has fired. *)
Definition World_burst_done : World :=
  World_with (set_last_correction_hour (Some (2024, 1, 1, 10)) State_default).

(** The dial is 5 minutes fast and a fast-set session has handed over to
    the stall branch of the minute tick. *)
Definition World_stalling : World :=
  World_with (set_stall_remaining_minutes 5 (State_with_offset 5)).

(** A fast-set session is running. *)
Definition World_running : World :=
  World_with (set_fast_set_status StRunning
                (set_fast_set_running true (State_with_offset 715))).

(** No fast-set request is pending. *)
Definition no_request_pending (w : World) : Prop :=
  fast_set_requested (STATE w) = false.

(** A schedule on which nothing happens: the clocks stand still at
    [now] and the web thread serves no request. *)
Definition quiet_schedule (now : datetime) : Schedule :=
  mk_Schedule now (fun _ => mk_Tick [] 0 now).

(** A request is pending and the dial is [behind] minutes behind. *)
Definition World_requested (behind : Z) : World :=
  World_with (set_fast_set_requested true (State_with_offset (720 - behind))).

(** What is reported of a poll: how it ended, the final status, and the
    number of pulses emitted. *)
Definition session_report (r : option (Outcome unit)) : option (bool * Status * nat) :=
  match r with
  | Some (Returns _ w) => Some (true, fast_set_status (STATE w), List.length (pulses w))
  | Some (Raises _ w) => Some (false, fast_set_status (STATE w), List.length (pulses w))
  | Some (Blocks w) => Some (false, fast_set_status (STATE w), List.length (pulses w))
  | None => None
  end.

(** Triples: from a world satisfying [P], a return with [a] ends in a world
    satisfying [Q a], a raise or a block in one satisfying [E]. *)
Definition hoare {A : Type} (P : World -> Prop) (m : M A)
    (Q : A -> World -> Prop) (E : World -> Prop) : Prop :=
  forall w,
    P w ->
    match m w with
    | Returns a w' => Q a w'
    | Raises _ w' => E w'
    | Blocks w' => E w'
    end.

(** The same for a computation on fuel. *)
Definition ends_in (r : option (Outcome unit)) (Q : World -> Prop) : Prop :=
  match r with
  | Some o => Q (final_world o)
  | None => True
  end.

(** An ASCII decimal digit and its value. *)
Definition digit_value (c : ascii) : option Z :=
  let n := Z.of_N (N_of_ascii c) in
  if (48 <=? n) && (n <=? 57) then Some (n - 48) else None.

(** The reading of a text of exactly two decimal digits. *)
Definition two_digit_value (s : string) : option Z :=
  match s with
  | String a (String b EmptyString) =>
      match digit_value a, digit_value b with
      | Some x, Some y => Some (10 * x + y)
      | _, _ => None
      end
  | _ => None
  end.

(** A schedule without web requests and without timeout. *)
Definition undisturbed (sched : Schedule) : Prop :=
  forall k, requests (ticks sched k) = [] /\ elapsed (ticks sched k) <= FAST_SET_MAX_SECONDS.

(** [update_offset_after_stall_or_advance(stalled=1, advanced=0)], [n] times. *)
Definition stall_times (n : nat) : M unit :=
  for_range n (fun _ => update_offset_after_stall_or_advance 1 0).

(** The process is started again: the module is loaded anew ([State()],
    relays off, lock free) and meets the state file as it was left. *)
Definition restart (w : World) : World :=
  mk_World State_default false false false (STATE_FILE w) (disk_writable w) (pulses w).

(** The pulses of one normal minute: A; B as well in minutes 0..49; the
    burst at minute 59 when it is due. *)
Definition minute_pulses (now : datetime) (burst_due : bool) : list HwEvent :=
  PulseA MINUTE_PULSE_WIDTH_SEC ::
  (if (0 <=? minute now) && (minute now <=? 49)
   then [PulseB MINUTE_PULSE_WIDTH_SEC] else []) ++
  (if (minute now =? 59) && burst_due then correction_burst else []).

(** The state file holds an [offset_minutes] entry that is no number. *)
Definition World_bad_file : World :=
  mk_World (State_with_offset 7) false false false
    (FileData IntInvalid (Some false)) true [].

(** The pulses emitted so far are exactly [L]. *)
Definition pulses_are (L : list HwEvent) (w : World) : Prop :=
  pulses w = L.

(** * Properties *)

Ltac unfold_py :=
  unfold bind, ret, raise, get_state, modify_state, with_LOCK, try_except,
    except_with, all_relays_off in *.

Ltac break_world w :=
  let s := fresh "s" in
  destruct w as [s ? ? ? ? ? ?]; destruct s; cbn in *; subst.

(** ** DialOffsetModel and ConvergencePlanner *)

Lemma current_estimated_dial_minutes_run (now : datetime) (w : World) :
  LOCK w = false ->
  current_estimated_dial_minutes now w =
  Returns (if has_offset (STATE w)
           then (to_12h_minutes now + offset_minutes (STATE w)) mod 720
           else to_12h_minutes now) w.
Proof.
  intros Hl. unfold current_estimated_dial_minutes. unfold_py.
  rewrite Hl. break_world w. destruct has_offset0; reflexivity.
Qed.

Lemma compute_fast_or_stall_plan_run (now : datetime) (w : World) :
  LOCK w = false ->
  exists p, compute_fast_or_stall_plan now w = Returns p w.
Proof.
  intros Hl. unfold compute_fast_or_stall_plan, bind.
  rewrite (current_estimated_dial_minutes_run now w Hl).
  destruct (_ =? 0); [eexists; reflexivity|].
  destruct (_ >? 360); eexists; reflexivity.
Qed.

(** C1. With [delta = (system minutes - dial minutes) mod 720], the planner
    returns (0,0) when [delta = 0], (720 - delta, 0) when [delta > 360] and
    (0, delta) otherwise; at [delta = 360] it returns (0, 360). *)
Theorem compute_fast_or_stall_plan_cases (now : datetime) (w : World) :
  LOCK w = false ->
  exists dial_m,
    current_estimated_dial_minutes now w = Returns dial_m w /\
    let delta := (to_12h_minutes now - dial_m) mod 720 in
    (delta = 0 -> compute_fast_or_stall_plan now w = Returns (0, 0) w) /\
    (delta > 360 -> compute_fast_or_stall_plan now w = Returns (720 - delta, 0) w) /\
    (delta <> 0 -> delta <= 360 ->
     compute_fast_or_stall_plan now w = Returns (0, delta) w) /\
    (delta = 360 -> compute_fast_or_stall_plan now w = Returns (0, 360) w).
Proof.
  intros Hl. eexists. split.
  { apply current_estimated_dial_minutes_run; assumption. }
  cbv zeta. unfold compute_fast_or_stall_plan, bind.
  rewrite (current_estimated_dial_minutes_run now w Hl).
  set (delta := (to_12h_minutes now - _) mod 720).
  repeat split; intros;
    destruct (Z.eqb_spec delta 0); destruct (Z.gtb_spec delta 360);
    try lia; unfold ret; try reflexivity; congruence.
Qed.

Lemma bind_Returns {A B : Type} (m : M A) (f : A -> M B) (w w1 : World) (a : A) :
  m w = Returns a w1 -> bind m f w = f a w1.
Proof. intros H. unfold bind. rewrite H. reflexivity. Qed.

Lemma Returns_value_eq {A : Type} (a b : A) (w w' : World) :
  Returns a w = Returns b w' -> a = b.
Proof. intros H. injection H as Ha _. exact Ha. Qed.

Lemma persist_state_run (w : World) :
  LOCK w = false ->
  persist_state w =
  Returns tt
    (if disk_writable w
     then set_STATE_FILE (FileData (IntValue (offset_minutes (STATE w)))
                            (Some (has_offset (STATE w)))) w
     else w).
Proof.
  intros Hl. unfold persist_state, json_dump. unfold_py. rewrite Hl.
  break_world w. destruct disk_writable0; reflexivity.
Qed.

Lemma set_dial_reading_run (hh mm : Z) (now : datetime) (w : World) :
  LOCK w = false ->
  exists w',
    set_dial_reading hh mm now w = Returns tt w' /\
    LOCK w' = false /\
    A_RELAY w' = A_RELAY w /\ B_RELAY w' = B_RELAY w /\ pulses w' = pulses w /\
    STATE w' =
    set_stall_remaining_minutes 0
      (set_has_offset true
         (set_offset_minutes
            ((((hh * 60) + mm) mod 720 - to_12h_minutes now) mod 720) (STATE w))).
Proof.
  intros Hl. unfold set_dial_reading.
  erewrite bind_Returns
    by (unfold_py; rewrite Hl; reflexivity).
  rewrite persist_state_run by reflexivity.
  eexists. split; [reflexivity|].
  break_world w. destruct disk_writable0; cbn; repeat split; reflexivity.
Qed.

(** C2. For [hh] in [0,23] and [mm] in [0,59], [set_dial_reading(hh, mm)]
    followed by [current_estimated_dial_minutes] at the same system time
    returns [(hh*60+mm) mod 720]; the call sets [has_offset] and resets
    [stall_remaining_minutes] to 0. *)
Theorem set_dial_reading_then_estimate (hh mm : Z) (now now' : datetime) (w : World) :
  0 <= hh <= 23 ->
  0 <= mm <= 59 ->
  LOCK w = false ->
  to_12h_minutes now' = to_12h_minutes now ->
  exists w',
    set_dial_reading hh mm now w = Returns tt w' /\
    current_estimated_dial_minutes now' w' = Returns ((hh * 60 + mm) mod 720) w' /\
    has_offset (STATE w') = true /\
    stall_remaining_minutes (STATE w') = 0.
Proof.
  intros _ _ Hl Hsame.
  destruct (set_dial_reading_run hh mm now w Hl)
    as (w' & Hrun & Hl' & _ & _ & _ & Hst).
  exists w'. split; [assumption|].
  rewrite (current_estimated_dial_minutes_run now' w' Hl'), Hst, Hsame. cbn.
  repeat split. f_equal.
  rewrite Z.add_mod_idemp_r by lia.
  replace (to_12h_minutes now + ((hh * 60 + mm) mod 720 - to_12h_minutes now))
    with ((hh * 60 + mm) mod 720) by lia.
  apply Z.mod_mod. lia.
Qed.

(** At 00:00 the operator declares that the dial reads 11:55. *)
Lemma set_dial_reading_then_estimate_witness :
  exists w',
    set_dial_reading 11 55 (mk_datetime 2024 1 1 0 0 0) World_initial = Returns tt w' /\
    current_estimated_dial_minutes (mk_datetime 2024 1 1 12 0 30) w' =
      Returns ((11 * 60 + 55) mod 720) w' /\
    has_offset (STATE w') = true /\
    stall_remaining_minutes (STATE w') = 0.
Proof.
  apply (set_dial_reading_then_estimate 11 55
           (mk_datetime 2024 1 1 0 0 0) (mk_datetime 2024 1 1 12 0 30) World_initial).
  - lia.
  - lia.
  - reflexivity.
  - reflexivity.
Defined.

(** The planner on a dial that reads exactly half a turn behind. *)
Lemma compute_fast_or_stall_plan_cases_witness :
  exists dial_m,
    current_estimated_dial_minutes midnight (World_with (State_with_offset 360)) =
      Returns dial_m (World_with (State_with_offset 360)) /\
    let delta := (to_12h_minutes midnight - dial_m) mod 720 in
    (delta = 0 ->
     compute_fast_or_stall_plan midnight (World_with (State_with_offset 360)) =
       Returns (0, 0) (World_with (State_with_offset 360))) /\
    (delta > 360 ->
     compute_fast_or_stall_plan midnight (World_with (State_with_offset 360)) =
       Returns (720 - delta, 0) (World_with (State_with_offset 360))) /\
    (delta <> 0 -> delta <= 360 ->
     compute_fast_or_stall_plan midnight (World_with (State_with_offset 360)) =
       Returns (0, delta) (World_with (State_with_offset 360))) /\
    (delta = 360 ->
     compute_fast_or_stall_plan midnight (World_with (State_with_offset 360)) =
       Returns (0, 360) (World_with (State_with_offset 360))).
Proof.
  apply (compute_fast_or_stall_plan_cases midnight (World_with (State_with_offset 360))).
  reflexivity.
Defined.

(** ** Reasoning about computations *)

Section Combinators.
Context {A B : Type}.

Lemma bind_Returns_inv (m : M A) (f : A -> M B) (w w' : World) (b : B) :
  bind m f w = Returns b w' ->
  exists a w1, m w = Returns a w1 /\ f a w1 = Returns b w'.
Proof.
  unfold bind. destruct (m w) as [a w1| |]; intros H; try discriminate.
  exists a, w1. split; [reflexivity|assumption].
Qed.

Lemma lock_safe_bind (m : M A) (f : A -> M B) :
  lock_safe m -> (forall a, lock_safe (f a)) -> lock_safe (bind m f).
Proof.
  intros Hm Hf w Hl. unfold bind. specialize (Hm w Hl).
  destruct (m w) as [a w1|e w1|w1]; cbn in *; try assumption.
  apply Hf; assumption.
Qed.

Lemma lock_neutral_bind (m : M A) (f : A -> M B) :
  lock_neutral m -> (forall a, lock_neutral (f a)) -> lock_neutral (bind m f).
Proof.
  intros Hm Hf w. unfold bind. specialize (Hm w).
  destruct (m w) as [a w1|e w1|w1]; cbn in *; try assumption.
  specialize (Hf a w1).
  destruct (f a w1); cbn in *; try assumption; congruence.
Qed.

Lemma preserves_bind (P : World -> Prop) (m : M A) (f : A -> M B) :
  preserves P m -> (forall a, preserves P (f a)) -> preserves P (bind m f).
Proof.
  intros Hm Hf w Hw. unfold bind. specialize (Hm w Hw).
  destruct (m w) as [a w1|e w1|w1]; cbn in *; try assumption.
  apply Hf; assumption.
Qed.
End Combinators.

Section Primitives.
Context {A : Type}.

Lemma lock_neutral_ret (a : A) : lock_neutral (ret a).
Proof. intros w. reflexivity. Qed.

Lemma lock_neutral_raise (e : Exn) : lock_neutral (@raise A e).
Proof. intros w. reflexivity. Qed.

Lemma lock_safe_ret (a : A) : lock_safe (ret a).
Proof. intros w Hl. exact Hl. Qed.

Lemma lock_safe_raise (e : Exn) : lock_safe (@raise A e).
Proof. intros w Hl. exact Hl. Qed.

Lemma lock_safe_with_LOCK (body : M A) :
  lock_neutral body -> lock_safe (with_LOCK body).
Proof.
  intros Hb w Hl. unfold with_LOCK. rewrite Hl.
  specialize (Hb (set_LOCK true w)).
  destruct (body (set_LOCK true w)); cbn in *; try reflexivity. assumption.
Qed.

Lemma preserves_ret (P : World -> Prop) (a : A) : preserves P (ret a).
Proof. intros w Hw. exact Hw. Qed.

Lemma preserves_raise (P : World -> Prop) (e : Exn) : preserves P (@raise A e).
Proof. intros w Hw. exact Hw. Qed.

Lemma preserves_with_LOCK (P : World -> Prop) (body : M A) :
  lock_blind P -> preserves P body -> preserves P (with_LOCK body).
Proof.
  intros HP Hb w Hw. unfold with_LOCK.
  destruct (LOCK w); [exact Hw|].
  assert (H1 : P (set_LOCK true w)) by (apply HP; exact Hw).
  specialize (Hb _ H1).
  destruct (body (set_LOCK true w)); cbn in *; try apply HP; assumption.
Qed.

Lemma preserves_try_except (P : World -> Prop) (body : M A) (handler : Exn -> M A) :
  preserves P body -> (forall e, preserves P (handler e)) ->
  preserves P (try_except body handler).
Proof.
  intros Hb Hh w Hw. unfold try_except, except_with. specialize (Hb w Hw).
  destruct (body w); cbn in *; try assumption. apply Hh; assumption.
Qed.
End Primitives.

Lemma lock_neutral_get_state : lock_neutral get_state.
Proof. intros w. reflexivity. Qed.

Lemma lock_neutral_modify_state (f : State -> State) : lock_neutral (modify_state f).
Proof. intros w. reflexivity. Qed.

Lemma lock_neutral_all_relays_off : lock_neutral all_relays_off.
Proof. intros w. reflexivity. Qed.

Lemma lock_neutral_is_safe {A : Type} (m : M A) : lock_neutral m -> lock_safe m.
Proof.
  intros Hm w Hl. specialize (Hm w).
  destruct (m w); cbn in *; try assumption; congruence.
Qed.

Lemma preserves_get_state (P : World -> Prop) : preserves P get_state.
Proof. intros w Hw. exact Hw. Qed.

Lemma preserves_modify_state (P : World -> Prop) (f : State -> State) :
  (forall w, P w -> P (set_STATE (f (STATE w)) w)) -> preserves P (modify_state f).
Proof. intros H w Hw. apply H. exact Hw. Qed.

Lemma preserves_for_range_from {P : World -> Prop} (body : nat -> M unit) (n i : nat) :
  (forall j, preserves P (body j)) -> preserves P (for_range_from i n body).
Proof.
  intros Hb. revert i.
  induction n as [|n IH]; intros i; cbn [for_range_from].
  - apply preserves_ret.
  - apply preserves_bind; [apply Hb|]. intros _. apply IH.
Qed.

Lemma lock_safe_for_range_from (body : nat -> M unit) (n i : nat) :
  (forall j, lock_safe (body j)) -> lock_safe (for_range_from i n body).
Proof.
  intros Hb. revert i.
  induction n as [|n IH]; intros i; cbn [for_range_from].
  - apply lock_safe_ret.
  - apply lock_safe_bind; [apply Hb|]. intros _. apply IH.
Qed.

Create HintDb lock_safe_db.

(** Decompose a goal [lock_neutral m] or [lock_safe m] along the syntax of [m]. *)
Ltac step_neutral :=
  repeat match goal with
    | |- lock_neutral (ret _) => apply lock_neutral_ret
    | |- lock_neutral (raise _) => apply lock_neutral_raise
    | |- lock_neutral get_state => apply lock_neutral_get_state
    | |- lock_neutral (modify_state _) => apply lock_neutral_modify_state
    | |- lock_neutral all_relays_off => apply lock_neutral_all_relays_off
    | |- lock_neutral (bind _ _) => apply lock_neutral_bind; [|intros ?]
    | |- lock_neutral (if ?c then _ else _) => destruct c
    | |- lock_neutral (match ?c with _ => _ end) => destruct c
    end.

Ltac step_safe :=
  repeat match goal with
    | |- lock_safe (ret _) => apply lock_safe_ret
    | |- lock_safe (raise _) => apply lock_safe_raise
    | |- lock_safe (with_LOCK _) => apply lock_safe_with_LOCK; step_neutral
    | |- lock_safe (bind _ _) => apply lock_safe_bind; [|intros ?]
    | |- lock_safe (if ?c then _ else _) => destruct c
    | |- lock_safe (match ?c with _ => _ end) => destruct c
    | |- lock_safe _ => solve [auto with lock_safe_db nocore]
    end.

(** ** Lock discipline of the functions that are called with the lock free *)

Lemma lock_safe_persist_state : lock_safe persist_state.
Proof.
  intros w Hl. rewrite persist_state_run by assumption.
  destruct (disk_writable w); cbn; assumption.
Qed.
#[local] Hint Resolve lock_safe_persist_state : lock_safe_db.

Lemma lock_safe_restore_state : lock_safe restore_state.
Proof.
  intros w Hl. unfold restore_state, json_load, int_of_field. unfold_py.
  destruct (STATE_FILE w) as [| |offset_field has_offset_field];
    [exact Hl|exact Hl|].
  rewrite Hl. destruct offset_field; cbn; reflexivity.
Qed.
#[local] Hint Resolve lock_safe_restore_state : lock_safe_db.

Lemma lock_safe_current_estimated_dial_minutes (now : datetime) :
  lock_safe (current_estimated_dial_minutes now).
Proof. unfold current_estimated_dial_minutes. step_safe. Qed.
#[local] Hint Resolve lock_safe_current_estimated_dial_minutes : lock_safe_db.

Lemma lock_safe_set_dial_reading (hh mm : Z) (now : datetime) :
  lock_safe (set_dial_reading hh mm now).
Proof. unfold set_dial_reading. step_safe. Qed.
#[local] Hint Resolve lock_safe_set_dial_reading : lock_safe_db.

Lemma lock_safe_compute_fast_or_stall_plan (now : datetime) :
  lock_safe (compute_fast_or_stall_plan now).
Proof.
  unfold compute_fast_or_stall_plan. cbv zeta. step_safe.
Qed.
#[local] Hint Resolve lock_safe_compute_fast_or_stall_plan : lock_safe_db.

Lemma lock_safe_update_offset_after_stall_or_advance (stalled advanced : Z) :
  lock_safe (update_offset_after_stall_or_advance stalled advanced).
Proof.
  unfold update_offset_after_stall_or_advance. step_safe.
Qed.
#[local] Hint Resolve lock_safe_update_offset_after_stall_or_advance : lock_safe_db.

Lemma lock_safe_pulse_a (width : Z) : lock_safe (pulse_a width).
Proof. intros w Hl. exact Hl. Qed.
#[local] Hint Resolve lock_safe_pulse_a : lock_safe_db.

Lemma lock_safe_pulse_b (width : Z) : lock_safe (pulse_b width).
Proof. intros w Hl. exact Hl. Qed.
#[local] Hint Resolve lock_safe_pulse_b : lock_safe_db.

Lemma lock_safe_pulse_ab (width : Z) : lock_safe (pulse_ab width).
Proof. intros w Hl. exact Hl. Qed.
#[local] Hint Resolve lock_safe_pulse_ab : lock_safe_db.

Lemma lock_safe_run_correction_burst_once_per_hour (now : datetime) :
  lock_safe (run_correction_burst_once_per_hour now).
Proof.
  unfold run_correction_burst_once_per_hour. step_safe.
  apply lock_safe_for_range_from. intros _. apply lock_safe_pulse_a.
Qed.
#[local] Hint Resolve lock_safe_run_correction_burst_once_per_hour : lock_safe_db.

Lemma lock_safe_fast_set : lock_safe fast_set.
Proof. unfold fast_set. step_safe. Qed.
#[local] Hint Resolve lock_safe_fast_set : lock_safe_db.

Lemma lock_safe_stop_correction : lock_safe stop_correction.
Proof.
  unfold stop_correction. step_safe.
  apply lock_neutral_is_safe, lock_neutral_all_relays_off.
Qed.
#[local] Hint Resolve lock_safe_stop_correction : lock_safe_db.

Lemma lock_safe_pulse_test (which : string) (w_form : option Z) (now : datetime) :
  lock_safe (pulse_test which w_form now).
Proof.
  unfold pulse_test. cbv zeta. step_safe.
Qed.
#[local] Hint Resolve lock_safe_pulse_test : lock_safe_db.

Lemma lock_safe_serve_all (rs : list WebReq) : lock_safe (serve_all rs).
Proof.
  induction rs as [|r rs IH]; cbn [serve_all]; step_safe.
  destruct r; cbn [serve]; step_safe.
Qed.
#[local] Hint Resolve lock_safe_serve_all : lock_safe_db.

(** ** Stall/advance bookkeeping *)

Lemma update_offset_after_stall_or_advance_run (stalled advanced : Z) (w : World) :
  LOCK w = false ->
  exists w',
    update_offset_after_stall_or_advance stalled advanced w = Returns tt w' /\
    LOCK w' = false /\
    has_offset (STATE w') = has_offset (STATE w) /\
    offset_minutes (STATE w') =
    (if ((stalled =? 0) && (advanced =? 0)) || negb (has_offset (STATE w))
     then offset_minutes (STATE w)
     else (offset_minutes (STATE w) - stalled + advanced) mod 720).
Proof.
  intros Hl. unfold update_offset_after_stall_or_advance.
  destruct ((stalled =? 0) && (advanced =? 0)); cbn [orb].
  { exists w. repeat split; assumption. }
  destruct (has_offset (STATE w)) eqn:Hh; cbn [negb].
  - erewrite bind_Returns
      by (unfold_py; rewrite Hl; cbn; rewrite Hh; reflexivity).
    rewrite persist_state_run by reflexivity.
    eexists. split; [reflexivity|].
    break_world w. destruct disk_writable0; cbn; repeat split; reflexivity.
  - erewrite bind_Returns
      by (unfold_py; rewrite Hl; cbn; rewrite Hh; reflexivity).
    eexists. split; [reflexivity|].
    break_world w. repeat split; reflexivity.
Qed.

Lemma advance_times_run (n : nat) : forall (i : nat) (w : World),
  LOCK w = false ->
  has_offset (STATE w) = true ->
  exists w',
    for_range_from i n (fun _ => update_offset_after_stall_or_advance 0 1) w =
      Returns tt w' /\
    LOCK w' = false /\
    has_offset (STATE w') = true /\
    offset_minutes (STATE w') mod 720 =
      (offset_minutes (STATE w) + Z.of_nat n) mod 720.
Proof.
  induction n as [|n IH]; intros i w Hl Hh; cbn [for_range_from].
  - exists w. repeat split; try assumption.
    rewrite Z.add_0_r. reflexivity.
  - destruct (update_offset_after_stall_or_advance_run 0 1 w Hl)
      as (w1 & Hrun & Hl1 & Hh1 & Hoff1).
    rewrite Hh in Hh1, Hoff1. cbn in Hoff1.
    destruct (IH (S i) w1 Hl1 Hh1) as (w' & Hrun' & Hl' & Hh' & Hoff').
    exists w'. erewrite bind_Returns by exact Hrun.
    repeat split; try assumption.
    rewrite Hoff', Hoff1, Z.add_mod_idemp_l by lia.
    f_equal. lia.
Qed.

(** The distance the planner measures depends on the offset alone. *)
Lemma delta_forward_of_offset (sys_m off : Z) :
  (sys_m - (sys_m + off) mod 720) mod 720 = (- off) mod 720.
Proof.
  rewrite Zminus_mod_idemp_r. f_equal. lia.
Qed.

Lemma compute_fast_or_stall_plan_by_offset (now : datetime) (w : World) :
  LOCK w = false ->
  has_offset (STATE w) = true ->
  compute_fast_or_stall_plan now w =
  Returns (let delta := (- offset_minutes (STATE w)) mod 720 in
           if delta =? 0 then (0, 0)
           else if delta >? 360 then (720 - delta, 0) else (0, delta)) w.
Proof.
  intros Hl Hh. unfold compute_fast_or_stall_plan, bind.
  rewrite (current_estimated_dial_minutes_run now w Hl), Hh.
  rewrite delta_forward_of_offset. cbv zeta.
  destruct (_ =? 0); [reflexivity|]. destruct (_ >? 360); reflexivity.
Qed.

(** C4. With [has_offset] true and the system time held fixed, if the
    planner says the dial is [advance] minutes behind, then applying
    [update_offset_after_stall_or_advance(stalled=0, advanced=1)] exactly
    [advance] times leaves the planner returning (0, 0). *)
Theorem advance_times_reaches_alignment (now : datetime) (advance : Z) (w : World) :
  LOCK w = false ->
  has_offset (STATE w) = true ->
  compute_fast_or_stall_plan now w = Returns (0, advance) w ->
  exists w',
    advance_times (Z.to_nat advance) w = Returns tt w' /\
    compute_fast_or_stall_plan now w' = Returns (0, 0) w'.
Proof.
  intros Hl Hh Hplan.
  rewrite (compute_fast_or_stall_plan_by_offset now w Hl Hh) in Hplan.
  cbv zeta in Hplan.
  pose proof (Z.mod_pos_bound (- offset_minutes (STATE w)) 720 ltac:(lia)) as Hb.
  assert (Hadv : advance = (- offset_minutes (STATE w)) mod 720).
  { apply Returns_value_eq in Hplan. revert Hplan.
    destruct (Z.eqb_spec ((- offset_minutes (STATE w)) mod 720) 0) as [E|E];
      [|destruct (Z.gtb_spec ((- offset_minutes (STATE w)) mod 720) 360)];
      intros Hplan; apply pair_equal_spec in Hplan; lia. }
  destruct (advance_times_run (Z.to_nat advance) 0 w Hl Hh)
    as (w' & Hrun & Hl' & Hh' & Hoff).
  exists w'. split; [exact Hrun|].
  rewrite (compute_fast_or_stall_plan_by_offset now w' Hl' Hh'). cbv zeta.
  assert (Hz : (- offset_minutes (STATE w')) mod 720 = 0).
  { rewrite Z2Nat.id in Hoff by lia.
    replace (- offset_minutes (STATE w')) with (0 - offset_minutes (STATE w')) by lia.
    rewrite <- Zminus_mod_idemp_r, Hoff, Zminus_mod_idemp_r, Hadv.
    replace (0 - (offset_minutes (STATE w) + (- offset_minutes (STATE w)) mod 720))
      with (- offset_minutes (STATE w) - (- offset_minutes (STATE w)) mod 720) by lia.
    rewrite Zminus_mod_idemp_r, Z.sub_diag. reflexivity. }
  rewrite Hz. reflexivity.
Qed.

(** Scenario B of the specification: the dial reads 11:55 at 00:00, hence
    is 5 minutes behind; five advances align it. *)
Lemma advance_times_reaches_alignment_witness :
  exists w',
    advance_times (Z.to_nat 5) (World_with (State_with_offset 715)) = Returns tt w' /\
    compute_fast_or_stall_plan midnight w' = Returns (0, 0) w'.
Proof.
  apply (advance_times_reaches_alignment midnight 5 (World_with (State_with_offset 715))).
  - reflexivity.
  - reflexivity.
  - reflexivity.
Defined.

(** ** Invariants along computations *)

Lemma preserves_pulse_a (P : World -> Prop) (width : Z) :
  (forall a b e w, P w -> P (emit e (set_relays a b w))) -> preserves P (pulse_a width).
Proof. intros H w Hw. apply H. exact Hw. Qed.

Lemma preserves_pulse_b (P : World -> Prop) (width : Z) :
  (forall a b e w, P w -> P (emit e (set_relays a b w))) -> preserves P (pulse_b width).
Proof. intros H w Hw. apply H. exact Hw. Qed.

Lemma preserves_pulse_ab (P : World -> Prop) (width : Z) :
  (forall a b e w, P w -> P (emit e (set_relays a b w))) -> preserves P (pulse_ab width).
Proof. intros H w Hw. apply H. exact Hw. Qed.

Lemma preserves_all_relays_off (P : World -> Prop) :
  (forall a b w, P w -> P (set_relays a b w)) -> preserves P all_relays_off.
Proof. intros H w Hw. apply H. exact Hw. Qed.

Lemma preserves_json_dump (P : World -> Prop) (data : FileContent) :
  (forall f w, P w -> P (set_STATE_FILE f w)) -> preserves P (json_dump data).
Proof.
  intros H w Hw. unfold json_dump. destruct (disk_writable w); cbn; auto.
Qed.

Lemma preserves_json_load (P : World -> Prop) : preserves P json_load.
Proof. intros w Hw. unfold json_load. destruct (STATE_FILE w); exact Hw. Qed.

Lemma preserves_int_of_field (P : World -> Prop) (x : IntField) :
  preserves P (int_of_field x).
Proof. intros w Hw. destruct x; exact Hw. Qed.

(** Decompose a goal [preserves P m] along the syntax of [m]; what is left
    are the writes: [modify_state], pulses, relays, the state file. *)
Create HintDb preserves_db.

Ltac step_preserves :=
  repeat match goal with
    | |- preserves _ _ => solve [auto with preserves_db nocore]
    | |- preserves _ (let _ := _ in _) => cbv zeta
    | |- preserves _ persist_state => unfold persist_state
    | |- preserves _ restore_state => unfold restore_state
    | |- preserves _ (set_dial_reading _ _ _) => unfold set_dial_reading
    | |- preserves _ (update_offset_after_stall_or_advance _ _) =>
        unfold update_offset_after_stall_or_advance
    | |- preserves _ (run_correction_burst_once_per_hour _) =>
        unfold run_correction_burst_once_per_hour
    | |- preserves _ (minute_tick_actions _) => unfold minute_tick_actions
    | |- preserves _ fast_set => unfold fast_set
    | |- preserves _ stop_correction => unfold stop_correction
    | |- preserves _ (pulse_test _ _ _) => unfold pulse_test
    | |- preserves _ (serve ?r) => destruct r; cbn [serve]
    | |- preserves _ (current_estimated_dial_minutes _) =>
        unfold current_estimated_dial_minutes
    | |- preserves _ (compute_fast_or_stall_plan _) => unfold compute_fast_or_stall_plan
    | |- preserves _ (ret _) => apply preserves_ret
    | |- preserves _ (raise _) => apply preserves_raise
    | |- preserves _ get_state => apply preserves_get_state
    | |- preserves _ json_load => apply preserves_json_load
    | |- preserves _ (int_of_field _) => apply preserves_int_of_field
    | |- preserves _ (bind _ _) => apply preserves_bind; [|intros ?]
    | |- preserves _ (with_LOCK _) => apply preserves_with_LOCK
    | |- preserves _ (try_except _ _) => apply preserves_try_except; [|intros ?]
    | |- preserves _ (for_range_from _ _ _) => apply preserves_for_range_from; intros ?
    | |- preserves _ (for_range _ _) => unfold for_range
    | |- preserves _ (if ?c then _ else _) => destruct c
    | |- preserves _ (match ?c with _ => _ end) => destruct c
    | |- preserves _ (pulse_a _) => apply preserves_pulse_a
    | |- preserves _ (pulse_b _) => apply preserves_pulse_b
    | |- preserves _ (pulse_ab _) => apply preserves_pulse_ab
    | |- preserves _ all_relays_off => apply preserves_all_relays_off
    | |- preserves _ (json_dump _) => apply preserves_json_dump
    | |- preserves _ (modify_state _) => apply preserves_modify_state
    end.

(** ** The offset invariant *)

Lemma lock_blind_offset_kept_or_normalized (c : Z) :
  lock_blind (offset_kept_or_normalized c).
Proof. intros b w. reflexivity. Qed.

Lemma mod_720_kept_or_normalized (c z : Z) (w : World) :
  offset_kept_or_normalized c (set_STATE (set_offset_minutes (z mod 720) (STATE w)) w).
Proof.
  right. unfold offset_normalized. cbn. apply Z.mod_pos_bound. lia.
Qed.

Ltac offset_leaf :=
  first [ apply lock_blind_offset_kept_or_normalized
        | intros ? _; apply mod_720_kept_or_normalized
        | intros; assumption ].








(** ** The hourly correction burst *)

Lemma hour_key_eqb_eq (a b : hour_key_t) : hour_key_eqb a b = true <-> a = b.
Proof.
  destruct a as [[[y1 m1] d1] h1], b as [[[y2 m2] d2] h2]. cbn.
  rewrite !andb_true_iff, !Z.eqb_eq. split.
  - intros [[[-> ->] ->] ->]. reflexivity.
  - intros H. injection H as -> -> -> ->. auto.
Qed.

Lemma minute_key_eqb_eq (a b : minute_key_t) : minute_key_eqb a b = true <-> a = b.
Proof.
  destruct a as [[[[y1 m1] d1] h1] n1], b as [[[[y2 m2] d2] h2] n2]. cbn.
  rewrite !andb_true_iff, !Z.eqb_eq. split.
  - intros [[[[-> ->] ->] ->] ->]. reflexivity.
  - intros H. injection H as -> -> -> -> ->. auto.
Qed.

Lemma hour_key_replace_minute (now : datetime) (m : Z) :
  hour_key (replace_minute now m) = hour_key now.
Proof. reflexivity. Qed.

Lemma pulse_a_repeated (width : Z) (n : nat) : forall (i : nat) (w : World),
  exists w',
    for_range_from i n (fun _ => pulse_a width) w = Returns tt w' /\
    pulses w' = pulses w ++ repeat (PulseA width) n /\
    STATE w' = STATE w /\
    LOCK w' = LOCK w.
Proof.
  induction n as [|n IH]; intros i w; cbn [for_range_from repeat].
  - exists w. rewrite app_nil_r. auto.
  - destruct (IH (S i) (emit (PulseA width) (set_relays false (B_RELAY w) w)))
      as (w' & Hrun & Hp & Hs & Hl).
    exists w'. split; [exact Hrun|].
    rewrite Hp, Hs, Hl. cbn. rewrite <- app_assoc. auto.
Qed.

Lemma run_correction_burst_once_per_hour_run (now : datetime) (w : World) :
  LOCK w = false ->
  minute now = 59 ->
  exists w',
    run_correction_burst_once_per_hour now w = Returns tt w' /\
    LOCK w' = false /\
    (guard_is hour_key_eqb (last_correction_hour (STATE w)) (hour_key now) = true ->
     w' = w) /\
    (guard_is hour_key_eqb (last_correction_hour (STATE w)) (hour_key now) = false ->
     pulses w' = pulses w ++ correction_burst /\
     STATE w' = set_last_correction_hour (Some (hour_key now)) (STATE w)).
Proof.
  intros Hl Hm. unfold run_correction_burst_once_per_hour.
  rewrite Hm. cbn [Z.eqb Pos.eqb negb]. cbv zeta.
  destruct (guard_is hour_key_eqb (last_correction_hour (STATE w)) (hour_key now)) eqn:Hg.
  - erewrite bind_Returns
      by (unfold_py; rewrite Hl; cbn; rewrite Hg; reflexivity).
    exists w. cbn. repeat split; try assumption; try discriminate.
    break_world w. reflexivity.
  - erewrite bind_Returns
      by (unfold_py; rewrite Hl; cbn; rewrite Hg; reflexivity).
    cbn iota. unfold for_range.
    match goal with
    | |- context [for_range_from 0 _ _ ?w1] =>
        destruct (pulse_a_repeated CORRECTION_PULSE_WIDTH_SEC CORRECTION_PULSES 0 w1)
          as (w' & Hrun & Hp & Hs & Hl')
    end.
    exists w'. split; [exact Hrun|].
    rewrite Hp, Hs, Hl'. cbn. repeat split; try discriminate.
Qed.

Lemma correction_pulses_app (w w' : World) (l : list HwEvent) :
  pulses w' = pulses w ++ l ->
  correction_pulses w' =
  (correction_pulses w + List.length (filter is_correction_pulse l))%nat.
Proof.
  intros H. unfold correction_pulses. rewrite H, filter_app, length_app. reflexivity.
Qed.

Lemma burst_budget_lock_blind (H : hour_key_t) (N : nat) : lock_blind (burst_budget H N).
Proof. intros b w. reflexivity. Qed.

Lemma run_correction_burst_once_per_hour_budget (H : hour_key_t) (N : nat) (now : datetime) :
  hour_key now = H ->
  preserves (burst_budget H N) (run_correction_burst_once_per_hour now).
Proof.
  intros HH w Hw.
  destruct (Z.eqb_spec (minute now) 59) as [Hm|Hm].
  - destruct (LOCK w) eqn:Hl.
    + unfold run_correction_burst_once_per_hour.
      rewrite Hm. cbn [Z.eqb Pos.eqb negb]. cbv zeta.
      unfold bind, with_LOCK. rewrite Hl. exact Hw.
    + destruct (run_correction_burst_once_per_hour_run now w Hl Hm)
        as (w' & Hrun & _ & Hsame & Hfire).
      rewrite Hrun. cbn [final_world]. rewrite HH in *.
      unfold burst_budget in *.
      destruct (guard_is hour_key_eqb (last_correction_hour (STATE w)) H) eqn:Hg.
      * rewrite (Hsame eq_refl), Hg. exact Hw.
      * destruct (Hfire eq_refl) as [Hp Hs].
        rewrite (correction_pulses_app w w' _ Hp), Hs. cbn.
        rewrite (proj2 (hour_key_eqb_eq H H) eq_refl).
        unfold CORRECTION_PULSES in Hw. lia.
  - unfold run_correction_burst_once_per_hour.
    replace (minute now =? 59) with false by (symmetry; apply Z.eqb_neq; exact Hm).
    exact Hw.
Qed.

Lemma minute_pulse_a_budget (H : hour_key_t) (N : nat) :
  preserves (burst_budget H N) (pulse_a MINUTE_PULSE_WIDTH_SEC).
Proof.
  intros w Hw. unfold burst_budget, correction_pulses in *. cbn.
  rewrite filter_app. cbn. rewrite app_nil_r. exact Hw.
Qed.

Lemma pulse_b_budget (H : hour_key_t) (N : nat) (width : Z) :
  preserves (burst_budget H N) (pulse_b width).
Proof.
  intros w Hw. unfold burst_budget, correction_pulses in *. cbn.
  rewrite filter_app. cbn. rewrite app_nil_r. exact Hw.
Qed.

#[local] Hint Resolve run_correction_burst_once_per_hour_budget
  minute_pulse_a_budget pulse_b_budget : preserves_db.

Lemma minute_tick_actions_budget (H : hour_key_t) (N : nat) (now : datetime) :
  hour_key now = H ->
  preserves (burst_budget H N) (minute_tick_actions now).
Proof.
  intros HH. step_preserves;
    first [ apply burst_budget_lock_blind | intros; assumption ].
Qed.

Lemma run_ticks_budget (H : hour_key_t) (N : nat) (nows : list datetime) :
  Forall (fun now => hour_key now = H) nows ->
  preserves (burst_budget H N) (run_ticks nows).
Proof.
  induction 1 as [|now nows Hnow _ IH]; cbn [run_ticks].
  - apply preserves_ret.
  - apply preserves_bind; [apply minute_tick_actions_budget; exact Hnow|].
    intros _. exact IH.
Qed.

Lemma run_correction_burst_once_per_hour_again (now now' : datetime) (w w' : World) :
  minute now = 59 ->
  hour_key now' = hour_key now ->
  run_correction_burst_once_per_hour now w = Returns tt w' ->
  run_correction_burst_once_per_hour now' w' = Returns tt w'.
Proof.
  intros Hm Hk Hrun.
  destruct (LOCK w) eqn:Hl.
  { unfold run_correction_burst_once_per_hour in Hrun.
    rewrite Hm in Hrun. cbn [Z.eqb Pos.eqb negb] in Hrun.
    unfold bind, with_LOCK in Hrun. rewrite Hl in Hrun. discriminate. }
  destruct (run_correction_burst_once_per_hour_run now w Hl Hm)
    as (w1 & Hrun1 & Hl1 & Hsame & Hfire).
  rewrite Hrun in Hrun1. injection Hrun1 as <-.
  assert (Hg : guard_is hour_key_eqb (last_correction_hour (STATE w')) (hour_key now') = true).
  { rewrite Hk.
    destruct (guard_is hour_key_eqb (last_correction_hour (STATE w)) (hour_key now)) eqn:Hg.
    - rewrite (Hsame eq_refl). exact Hg.
    - destruct (Hfire eq_refl) as [_ Hs]. rewrite Hs.
      cbn [last_correction_hour set_last_correction_hour guard_is].
      apply hour_key_eqb_eq. reflexivity. }
  destruct (Z.eqb_spec (minute now') 59) as [Hm'|Hm'].
  - destruct (run_correction_burst_once_per_hour_run now' w' Hl1 Hm')
      as (w2 & Hrun2 & _ & Hsame2 & _).
    rewrite Hrun2, (Hsame2 Hg). reflexivity.
  - unfold run_correction_burst_once_per_hour.
    replace (minute now' =? 59) with false by (symmetry; apply Z.eqb_neq; exact Hm').
    reflexivity.
Qed.

(** C8. Whatever the state, if the minute tick is invoked any number of
    times with readings of one calendar hour, at most one burst (17
    correction pulses) is emitted; and once the burst routine has returned
    from an invocation at minute 59, every later invocation in the same
    hour returns without changing anything. *)
Theorem correction_burst_at_most_once_per_hour
    (H : hour_key_t) (nows : list datetime) (w : World) :
  Forall (fun now => hour_key now = H) nows ->
  (correction_pulses (final_world (run_ticks nows w)) <=
   correction_pulses w + CORRECTION_PULSES)%nat /\
  (forall now now' w1 w2,
      hour_key now = H -> hour_key now' = H -> minute now = 59 ->
      run_correction_burst_once_per_hour now w1 = Returns tt w2 ->
      run_correction_burst_once_per_hour now' w2 = Returns tt w2).
Proof.
  intros Hnows. split.
  - assert (Hstart : burst_budget H (correction_pulses w + CORRECTION_PULSES) w).
    { unfold burst_budget. destruct (guard_is _ _ _); lia. }
    pose proof (run_ticks_budget H _ nows Hnows w Hstart) as Hend.
    unfold burst_budget in Hend. lia.
  - intros now now' w1 w2 Hk Hk' Hm Hrun.
    apply (run_correction_burst_once_per_hour_again now now' w1 w2 Hm); congruence.
Qed.

(** Three wake-ups of the loop at 10:59 after the tick of 10:58. *)
Lemma correction_burst_at_most_once_per_hour_witness :
  (correction_pulses
     (final_world
        (run_ticks [mk_datetime 2024 1 1 10 58 0; mk_datetime 2024 1 1 10 59 0;
                    mk_datetime 2024 1 1 10 59 0; mk_datetime 2024 1 1 10 59 0]
           World_initial)) <=
   correction_pulses World_initial + CORRECTION_PULSES)%nat /\
  (forall now now' w1 w2,
      hour_key now = (2024, 1, 1, 10) -> hour_key now' = (2024, 1, 1, 10) ->
      minute now = 59 ->
      run_correction_burst_once_per_hour now w1 = Returns tt w2 ->
      run_correction_burst_once_per_hour now' w2 = Returns tt w2).
Proof.
  apply (correction_burst_at_most_once_per_hour (2024, 1, 1, 10)).
  repeat (apply Forall_cons; [reflexivity|]). apply Forall_nil.
Defined.

(** The bound is reached: the first tick at 10:59 emits the 17 pulses, and
    the repeated invocations add none. *)
Example correction_burst_fires_once :
  correction_pulses
    (final_world
       (run_ticks [mk_datetime 2024 1 1 10 58 0; mk_datetime 2024 1 1 10 59 0;
                   mk_datetime 2024 1 1 10 59 0; mk_datetime 2024 1 1 10 59 0]
          World_initial)) = 17%nat.
Proof. reflexivity. Qed.

(** ** The ad-hoc burst of the pulse test *)

(** C7, as stated: the target "CORR" emits the burst in every state.  At
    10:20, after the burst of 10 o'clock has fired, it emits nothing. *)
Lemma pulse_test_burst_counterexample :
  pulse_test "CORR" (Some 1000) (mk_datetime 2024 1 1 10 20 0) World_burst_done =
    Returns tt World_burst_done /\
  pulses World_burst_done <> pulses World_burst_done ++ correction_burst.
Proof. split; [reflexivity|discriminate]. Qed.

(** C7, amended: the target "CORR" calls the burst routine with the minute
    forced to 59, so the burst does not depend on the calendar minute; it
    is emitted, and the hour recorded, when [last_correction_hour] is not
    the current calendar hour, and nothing happens when it is. *)
Theorem pulse_test_burst_once_per_hour (w_form : option Z) (now : datetime) (w : World) :
  LOCK w = false ->
  exists w',
    pulse_test "CORR" w_form now w = Returns tt w' /\
    (guard_is hour_key_eqb (last_correction_hour (STATE w)) (hour_key now) = false ->
     pulses w' = pulses w ++ correction_burst /\
     STATE w' = set_last_correction_hour (Some (hour_key now)) (STATE w)) /\
    (guard_is hour_key_eqb (last_correction_hour (STATE w)) (hour_key now) = true ->
     w' = w).
Proof.
  intros Hl.
  destruct (run_correction_burst_once_per_hour_run (replace_minute now 59) w Hl eq_refl)
    as (w' & Hrun & _ & Hsame & Hfire).
  rewrite hour_key_replace_minute in *.
  exists w'. split; [|split; assumption].
  unfold pulse_test. cbn [String.eqb Ascii.eqb Bool.eqb]. exact Hrun.
Qed.

(** At 10:20 of an hour whose burst has not fired, and at 11:20 after the
    burst of 10 o'clock. *)
Lemma pulse_test_burst_once_per_hour_witness :
  exists w',
    pulse_test "CORR" None (mk_datetime 2024 1 1 11 20 0) World_burst_done =
      Returns tt w' /\
    (guard_is hour_key_eqb (last_correction_hour (STATE World_burst_done))
       (hour_key (mk_datetime 2024 1 1 11 20 0)) = false ->
     pulses w' = pulses World_burst_done ++ correction_burst /\
     STATE w' =
       set_last_correction_hour (Some (hour_key (mk_datetime 2024 1 1 11 20 0)))
         (STATE World_burst_done)) /\
    (guard_is hour_key_eqb (last_correction_hour (STATE World_burst_done))
       (hour_key (mk_datetime 2024 1 1 11 20 0)) = true ->
     w' = World_burst_done).
Proof.
  apply (pulse_test_burst_once_per_hour None (mk_datetime 2024 1 1 11 20 0)
           World_burst_done).
  reflexivity.
Defined.

(** ** Nested acquisition of the lock *)

Lemma minute_tick_actions_stall_blocks (now : datetime) (w : World) :
  LOCK w = false ->
  guard_is minute_key_eqb (last_minute_tick (STATE w)) (minute_key now) = false ->
  fast_set_running (STATE w) = false ->
  stall_remaining_minutes (STATE w) > 0 ->
  exists w',
    minute_tick_actions now w = Blocks w' /\
    LOCK w' = true /\
    stall_remaining_minutes (STATE w') = stall_remaining_minutes (STATE w) - 1 /\
    offset_minutes (STATE w') = offset_minutes (STATE w).
Proof.
  intros Hl Hg Hr Hs.
  unfold minute_tick_actions, update_offset_after_stall_or_advance. unfold_py.
  rewrite Hl. cbn. rewrite Hg. cbn. rewrite Hr.
  replace (stall_remaining_minutes (STATE w) >? 0) with true
    by (symmetry; apply Z.gtb_gt; lia).
  eexists. split; [reflexivity|]. cbn. auto.
Qed.

(** C9 fails on the code: in the stall branch [minute_tick_actions] calls
    [update_offset_after_stall_or_advance] inside its own [with LOCK] block,
    and the daemon thread waits for ever for the lock it holds. *)
Theorem minute_tick_actions_stall_deadlock :
  minute_tick_actions (mk_datetime 2024 1 1 0 1 0) World_stalling =
  Blocks
    (mk_World
       (mk_State 5 true (Some (2024, 1, 1, 0, 1)) None 4 false false false StIdle)
       true false false FileMissing true []).
Proof. reflexivity. Qed.

(** The state of the deadlock is reached from a fresh start: the operator
    declares the dial 5 minutes fast at 00:00 and requests a fast set; the
    session hands over to the stall branch; the tick of 00:01 blocks. *)
Example stall_scenario_deadlocks :
  run_ops [OpSetDial 0 5 midnight; OpFastSet;
           OpPoll 1 (mk_Schedule midnight (fun _ => mk_Tick [] 0 midnight));
           OpTick (mk_datetime 2024 1 1 0 1 0)] World_initial =
  Some
    (Blocks
       (mk_World
          (mk_State 5 true (Some (2024, 1, 1, 0, 1)) None 4 false false false
             (StWillStall 5))
          true false false (FileData (IntValue 5) (Some true)) true [])).
Proof. vm_compute. reflexivity. Qed.

(** ** Requests and the running session *)

Lemma fast_set_claim_run (w : World) :
  LOCK w = false ->
  fast_set_claim w =
  if negb (fast_set_requested (STATE w)) || fast_set_running (STATE w)
  then Returns false w
  else Returns true
         (set_STATE
            (set_fast_set_status StStarting
               (set_fast_set_cancel_requested false
                  (set_fast_set_running true
                     (set_fast_set_requested false (STATE w))))) w).
Proof.
  intros Hl. unfold fast_set_claim. unfold_py. rewrite Hl. cbn.
  destruct (negb (fast_set_requested (STATE w)) || fast_set_running (STATE w));
    break_world w; reflexivity.
Qed.

(** A poll that finds nothing to claim changes nothing. *)
Lemma maybe_handle_fast_set_idle (fuel : nat) (sched : Schedule) (w : World) :
  negb (fast_set_requested (STATE w)) || fast_set_running (STATE w) = true ->
  option_map final_world (maybe_handle_fast_set fuel sched w) = Some w.
Proof.
  intros Hidle. unfold maybe_handle_fast_set.
  destruct (LOCK w) eqn:Hl.
  - unfold fast_set_claim, with_LOCK. rewrite Hl. reflexivity.
  - rewrite (fast_set_claim_run w Hl), Hidle. reflexivity.
Qed.

Lemma fast_set_run (w : World) :
  LOCK w = false ->
  fast_set w =
  Returns tt
    (set_STATE
       (set_fast_set_status StRequested
          (set_fast_set_cancel_requested false
             (set_fast_set_requested true (STATE w)))) w).
Proof.
  intros Hl. unfold fast_set. unfold_py. rewrite Hl.
  break_world w. reflexivity.
Qed.

Lemma fast_set_finally_run (w : World) :
  LOCK w = false ->
  fast_set_finally w =
  Returns tt
    (set_relays false false
       (set_STATE
          (set_fast_set_cancel_requested false
             (set_fast_set_running false (STATE w))) w)).
Proof.
  intros Hl. unfold fast_set_finally. unfold_py. rewrite Hl.
  break_world w. reflexivity.
Qed.

(** C3, as stated: a second request while a session runs leaves the session
    state unchanged.  The handler sets [fast_set_requested] and rewrites the
    status whatever [fast_set_running] is. *)
Lemma fast_set_while_running_counterexample :
  fast_set_running (STATE World_running) = true /\
  fast_set World_running =
    Returns tt
      (World_with (mk_State 715 true None None 0 true true false StRequested)) /\
  STATE (World_with (mk_State 715 true None None 0 true true false StRequested)) <>
  STATE World_running.
Proof. split; [reflexivity|]. split; [reflexivity|]. discriminate. Qed.

(** C3, amended: while a session runs, a second request starts no
    concurrent run and emits no pulse, but it is recorded: it sets
    [fast_set_requested], clears [fast_set_cancel_requested] and replaces
    the status.  A poll during the session still finds nothing to claim;
    when the session ends, its [finally] block leaves the request in place
    and the next poll claims it, starting a new session. *)
Theorem fast_set_while_running_is_queued (w : World) :
  LOCK w = false ->
  fast_set_running (STATE w) = true ->
  exists w',
    fast_set w = Returns tt w' /\
    STATE w' =
      set_fast_set_status StRequested
        (set_fast_set_cancel_requested false
           (set_fast_set_requested true (STATE w))) /\
    pulses w' = pulses w /\ A_RELAY w' = A_RELAY w /\ B_RELAY w' = B_RELAY w /\
    (forall fuel sched,
        maybe_handle_fast_set fuel sched w' = Some (Returns tt w')) /\
    exists w_end w_next,
      fast_set_finally w' = Returns tt w_end /\
      fast_set_requested (STATE w_end) = true /\
      fast_set_claim w_end = Returns true w_next /\
      fast_set_running (STATE w_next) = true /\
      fast_set_status (STATE w_next) = StStarting.
Proof.
  intros Hl Hr. eexists. split; [apply fast_set_run; exact Hl|].
  split; [reflexivity|]. split; [reflexivity|].
  split; [reflexivity|]. split; [reflexivity|]. split.
  - intros fuel sched. unfold maybe_handle_fast_set.
    rewrite fast_set_claim_run by exact Hl. cbn. rewrite Hr. reflexivity.
  - eexists. eexists. split; [apply fast_set_finally_run; exact Hl|].
    split; [reflexivity|]. split.
    + rewrite fast_set_claim_run by exact Hl. cbn. reflexivity.
    + split; reflexivity.
Qed.

Lemma fast_set_while_running_is_queued_witness :
  exists w',
    fast_set World_running = Returns tt w' /\
    STATE w' =
      set_fast_set_status StRequested
        (set_fast_set_cancel_requested false
           (set_fast_set_requested true (STATE World_running))) /\
    pulses w' = pulses World_running /\
    A_RELAY w' = A_RELAY World_running /\ B_RELAY w' = B_RELAY World_running /\
    (forall fuel sched,
        maybe_handle_fast_set fuel sched w' = Some (Returns tt w')) /\
    exists w_end w_next,
      fast_set_finally w' = Returns tt w_end /\
      fast_set_requested (STATE w_end) = true /\
      fast_set_claim w_end = Returns true w_next /\
      fast_set_running (STATE w_next) = true /\
      fast_set_status (STATE w_next) = StStarting.
Proof.
  apply (fast_set_while_running_is_queued World_running).
  - reflexivity.
  - reflexivity.
Defined.

(** The request made at the second pulse of a session outlives the
    session, and the next poll runs a session of its own. *)
Example second_request_is_served_later :
  let sched := mk_Schedule midnight
                 (fun k => mk_Tick (if Nat.eqb k 2 then [ReqFastSet] else []) 0 midnight) in
  let w0 := World_with (set_fast_set_requested true (State_with_offset 715)) in
  exists w1 w2,
    maybe_handle_fast_set 10 sched w0 = Some (Returns tt w1) /\
    fast_set_status (STATE w1) = StComplete 5 /\
    fast_set_requested (STATE w1) = true /\
    maybe_handle_fast_set 10 (quiet_schedule midnight) w1 = Some (Returns tt w2) /\
    fast_set_status (STATE w2) = StAligned /\
    fast_set_requested (STATE w2) = false.
Proof.
  cbv zeta. eexists. eexists.
  split; [vm_compute; reflexivity|].
  split; [reflexivity|]. split; [reflexivity|].
  split; [vm_compute; reflexivity|].
  split; reflexivity.
Qed.

(** ** Stop *)

Lemma stop_correction_run (w : World) :
  LOCK w = false ->
  stop_correction w =
  Returns tt
    (set_relays false false
       (set_STATE
          (set_fast_set_status StStopRequested
             (set_fast_set_requested false
                (set_fast_set_cancel_requested true (STATE w)))) w)).
Proof.
  intros Hl. unfold stop_correction. unfold_py. rewrite Hl.
  break_world w. reflexivity.
Qed.

Lemma lock_blind_no_request_pending : lock_blind no_request_pending.
Proof. intros b w. reflexivity. Qed.

Ltac request_leaf :=
  first [ apply lock_blind_no_request_pending
        | intros; assumption
        | intros; reflexivity ].

Lemma op_keeps_no_request (op : Op) (w : World) (o : Outcome unit) :
  is_fast_set_request op = false ->
  no_request_pending w ->
  run_op op w = Some o ->
  no_request_pending (final_world o).
Proof.
  intros Hop Hw Hrun.
  destruct op; try discriminate Hop; cbn [run_op] in Hrun.
  - injection Hrun as <-. revert w Hw.
    change (preserves no_request_pending restore_state).
    step_preserves; request_leaf.
  - pose proof (maybe_handle_fast_set_idle fuel sched w) as Hidle.
    rewrite Hw in Hidle. specialize (Hidle eq_refl).
    rewrite Hrun in Hidle. injection Hidle as ->. exact Hw.
  - injection Hrun as <-. revert w Hw.
    change (preserves no_request_pending (minute_tick_actions now)).
    step_preserves; request_leaf.
  - injection Hrun as <-. revert w Hw.
    change (preserves no_request_pending
              (update_offset_after_stall_or_advance stalled advanced)).
    step_preserves; request_leaf.
  - injection Hrun as <-. revert w Hw.
    change (preserves no_request_pending (set_dial_reading hh mm now)).
    step_preserves; request_leaf.
  - injection Hrun as <-. revert w Hw.
    change (preserves no_request_pending stop_correction).
    step_preserves; request_leaf.
  - injection Hrun as <-. revert w Hw.
    change (preserves no_request_pending (pulse_test which w_form now)).
    step_preserves; request_leaf.
Qed.

Lemma ops_keep_no_request (ops : list Op) : forall (w : World) (o : Outcome unit),
  forallb (fun op => negb (is_fast_set_request op)) ops = true ->
  no_request_pending w ->
  run_ops ops w = Some o ->
  no_request_pending (final_world o).
Proof.
  induction ops as [|op ops IH]; intros w o Hops Hw Hrun; cbn in Hrun.
  - injection Hrun as <-. exact Hw.
  - cbn in Hops. apply andb_prop in Hops. destruct Hops as [Hop Hops].
    apply negb_true_iff in Hop.
    pose proof (op_keeps_no_request op w) as Hstep.
    destruct (run_op op w) as [[[] w1|e w1|w1]|]; try discriminate Hrun.
    + apply (IH w1 o Hops); [|exact Hrun]. exact (Hstep _ Hop Hw eq_refl).
    + injection Hrun as <-. exact (Hstep _ Hop Hw eq_refl).
    + injection Hrun as <-. exact (Hstep _ Hop Hw eq_refl).
Qed.

(** C10. A stop request clears [fast_set_requested], sets
    [fast_set_cancel_requested] and switches both relays off; whatever the
    two threads do afterwards, as long as no new fast-set request is made,
    no request is pending and a poll of the daemon loop starts no session:
    it leaves the world as it is. *)
Theorem stop_discards_pending_request (ops : list Op) (w : World) :
  LOCK w = false ->
  forallb (fun op => negb (is_fast_set_request op)) ops = true ->
  exists w',
    stop_correction w = Returns tt w' /\
    fast_set_requested (STATE w') = false /\
    fast_set_cancel_requested (STATE w') = true /\
    A_RELAY w' = false /\ B_RELAY w' = false /\
    forall o,
      run_ops ops w' = Some o ->
      fast_set_requested (STATE (final_world o)) = false /\
      forall fuel sched,
        option_map final_world (maybe_handle_fast_set fuel sched (final_world o)) =
        Some (final_world o).
Proof.
  intros Hl Hops. eexists. split; [apply stop_correction_run; exact Hl|].
  split; [reflexivity|]. split; [reflexivity|].
  split; [reflexivity|]. split; [reflexivity|].
  intros o Hrun.
  assert (Hend : no_request_pending (final_world o)).
  { eapply ops_keep_no_request; [exact Hops| |exact Hrun]. reflexivity. }
  split; [exact Hend|].
  intros fuel sched. apply maybe_handle_fast_set_idle.
  unfold no_request_pending in Hend. rewrite Hend. reflexivity.
Qed.

(** A request is pending when the operator presses stop; the loop then
    polls, ticks at 00:01 and polls again. *)
Lemma stop_discards_pending_request_witness :
  exists w',
    stop_correction (World_with (set_fast_set_requested true (State_with_offset 715))) =
      Returns tt w' /\
    fast_set_requested (STATE w') = false /\
    fast_set_cancel_requested (STATE w') = true /\
    A_RELAY w' = false /\ B_RELAY w' = false /\
    forall o,
      run_ops [OpPoll 500 (quiet_schedule midnight);
               OpTick (mk_datetime 2024 1 1 0 1 0);
               OpPoll 500 (quiet_schedule (mk_datetime 2024 1 1 0 1 1))] w' = Some o ->
      fast_set_requested (STATE (final_world o)) = false /\
      forall fuel sched,
        option_map final_world (maybe_handle_fast_set fuel sched (final_world o)) =
        Some (final_world o).
Proof.
  apply (stop_discards_pending_request
           [OpPoll 500 (quiet_schedule midnight);
            OpTick (mk_datetime 2024 1 1 0 1 0);
            OpPoll 500 (quiet_schedule (mk_datetime 2024 1 1 0 1 1))]
           (World_with (set_fast_set_requested true (State_with_offset 715)))).
  - reflexivity.
  - reflexivity.
Defined.

(** ** The fast-set session *)

Lemma lock_safe_fast_set_prologue (now : datetime) : lock_safe (fast_set_prologue now).
Proof. unfold fast_set_prologue. step_safe. Qed.

Lemma lock_safe_fast_set_iteration (t : Tick) (pulses_sent : Z) :
  lock_safe (fast_set_iteration t pulses_sent).
Proof. unfold fast_set_iteration. cbv zeta. step_safe. Qed.

Lemma lock_safe_fast_set_except (e : Exn) : lock_safe (fast_set_except e).
Proof. unfold fast_set_except. step_safe. Qed.

(** The loop goes round again only below the pulse cap. *)
Lemma fast_set_iteration_continue (t : Tick) (pulses_sent : Z) (w w' : World) :
  fast_set_iteration t pulses_sent w = Returns Continue w' ->
  pulses_sent < FAST_SET_MAX_PULSES.
Proof.
  unfold fast_set_iteration. intros H.
  apply bind_Returns_inv in H. destruct H as (_ & w1 & _ & H).
  apply bind_Returns_inv in H. destruct H as (cancelled & w2 & _ & H).
  destruct cancelled; [discriminate H|].
  apply bind_Returns_inv in H. destruct H as ([stall adv] & w3 & _ & H).
  destruct (stall >? 0).
  { apply bind_Returns_inv in H. destruct H as (_ & w4 & _ & H). discriminate H. }
  destruct (adv =? 0).
  { apply bind_Returns_inv in H. destruct H as (_ & w4 & _ & H). discriminate H. }
  destruct (Z.geb_spec pulses_sent FAST_SET_MAX_PULSES) as [Hge|Hlt].
  - discriminate H.
  - exact Hlt.
Qed.

Lemma fast_set_loop_ends (sched : nat -> Tick) (fuel : nat) :
  forall (pulses_sent : nat) (w : World),
    LOCK w = false ->
    (pulses_sent <= 400)%nat ->
    (401 <= fuel + pulses_sent)%nat ->
    exists o, fast_set_loop fuel sched pulses_sent w = Some o /\ unlocked_outcome o.
Proof.
  induction fuel as [|fuel IH]; intros k w Hl Hk Hfuel; [lia|].
  cbn [fast_set_loop].
  assert (Hsafe : lock_safe (serve_all (requests (sched k)) ;;
                             fast_set_iteration (sched k) (Z.of_nat k))).
  { apply lock_safe_bind; [apply lock_safe_serve_all|].
    intros _. apply lock_safe_fast_set_iteration. }
  specialize (Hsafe w Hl).
  destruct ((serve_all (requests (sched k)) ;;
             fast_set_iteration (sched k) (Z.of_nat k)) w)
    as [[|] w'|e w'|w'] eqn:Hstep; cbn in Hsafe.
  - apply bind_Returns_inv in Hstep. destruct Hstep as (_ & w1 & _ & Hit).
    apply fast_set_iteration_continue in Hit. unfold FAST_SET_MAX_PULSES in Hit.
    apply IH; [exact Hsafe|lia|lia].
  - eexists. split; [reflexivity|exact Hsafe].
  - eexists. split; [reflexivity|exact Hsafe].
  - contradiction.
Qed.

Lemma fast_set_try_ends (fuel : nat) (sched : Schedule) (w : World) :
  LOCK w = false ->
  (401 <= fuel)%nat ->
  exists o, fast_set_try fuel sched w = Some o /\ unlocked_outcome o.
Proof.
  intros Hl Hfuel. unfold fast_set_try.
  pose proof (lock_safe_fast_set_prologue (plan_now sched) w Hl) as Hsafe.
  destruct (fast_set_prologue (plan_now sched) w) as [[|] w'|e w'|w'];
    cbn in Hsafe.
  - apply fast_set_loop_ends; [exact Hsafe|lia|lia].
  - eexists. split; [reflexivity|exact Hsafe].
  - eexists. split; [reflexivity|exact Hsafe].
  - contradiction.
Qed.

(** C6. A session that has been claimed ends, on every path (completed,
    stalling, cancelled, timeout, pulse cap), with a normal return in a
    world where both relays are off and [fast_set_running] and
    [fast_set_cancel_requested] are cleared; no exception leaves
    [maybe_handle_fast_set] and the lock is free again. *)
Theorem fast_set_session_ends_idle (fuel : nat) (sched : Schedule) (w : World) :
  (401 <= fuel)%nat ->
  LOCK w = false ->
  fast_set_requested (STATE w) = true ->
  fast_set_running (STATE w) = false ->
  exists w',
    maybe_handle_fast_set fuel sched w = Some (Returns tt w') /\
    fast_set_running (STATE w') = false /\
    fast_set_cancel_requested (STATE w') = false /\
    A_RELAY w' = false /\
    B_RELAY w' = false /\
    LOCK w' = false.
Proof.
  intros Hfuel Hl Hreq Hrun. unfold maybe_handle_fast_set.
  rewrite (fast_set_claim_run w Hl), Hreq, Hrun. cbn [negb orb].
  match goal with
  | |- context [fast_set_try fuel sched ?w1] =>
      destruct (fast_set_try_ends fuel sched w1 Hl Hfuel) as (o & Ho & Hsafe)
  end.
  rewrite Ho.
  assert (Hexc : exists w2, except_with fast_set_except o = Returns tt w2 /\
                            LOCK w2 = false).
  { destruct o as [[] w2|e w2|w2]; cbn in Hsafe.
    - exists w2. split; [reflexivity|exact Hsafe].
    - cbn [except_with].
      pose proof (lock_safe_fast_set_except e w2 Hsafe) as Hh.
      unfold fast_set_except in *. unfold_py. rewrite Hsafe in *.
      eexists. split; reflexivity.
    - contradiction. }
  destruct Hexc as (w2 & -> & Hl2).
  cbn [finally_with]. rewrite (fast_set_finally_run w2 Hl2).
  eexists. split; [reflexivity|]. cbn. auto.
Qed.

(** Scenario B again, now through the whole session: five pulses, then
    idle. *)
Lemma fast_set_session_ends_idle_witness :
  exists w',
    maybe_handle_fast_set 401 (quiet_schedule midnight) (World_requested 5) =
      Some (Returns tt w') /\
    fast_set_running (STATE w') = false /\
    fast_set_cancel_requested (STATE w') = false /\
    A_RELAY w' = false /\
    B_RELAY w' = false /\
    LOCK w' = false.
Proof.
  apply (fast_set_session_ends_idle 401 (quiet_schedule midnight) (World_requested 5)).
  - lia.
  - reflexivity.
  - reflexivity.
  - reflexivity.
Defined.

(** Each way a session can end is taken by some run. *)

Example session_completed :
  session_report
    (maybe_handle_fast_set 401 (quiet_schedule midnight) (World_requested 5)) =
  Some (true, StComplete 5, 5%nat).
Proof. vm_compute. reflexivity. Qed.

Example session_stalling :
  session_report
    (maybe_handle_fast_set 401 (quiet_schedule midnight) (World_requested 715)) =
  Some (true, StWillStall 5, 0%nat).
Proof. vm_compute. reflexivity. Qed.

Example session_cancelled :
  session_report
    (maybe_handle_fast_set 401
       (mk_Schedule midnight
          (fun k => mk_Tick (if Nat.eqb k 2 then [ReqStop] else []) 0 midnight))
       (World_requested 5)) =
  Some (true, StCancelled, 2%nat).
Proof. vm_compute. reflexivity. Qed.

Example session_timeout :
  session_report
    (maybe_handle_fast_set 401
       (mk_Schedule midnight
          (fun k => mk_Tick [] (Z.of_nat k * 1000000) midnight))
       (World_requested 5)) =
  Some (true, StError (RuntimeError MsgTimeout), 3%nat).
Proof. vm_compute. reflexivity. Qed.

(** The pulse cap needs the operator's help: the dial is declared half a
    turn behind, and declared so again after 300 pulses. *)
Example session_pulse_cap :
  session_report
    (maybe_handle_fast_set 401
       (mk_Schedule midnight
          (fun k => mk_Tick (if Nat.eqb k 300 then [ReqSetDial 6 0 midnight] else [])
                      0 midnight))
       (World_requested 360)) =
  Some (true, StError (RuntimeError MsgPulseCap), 400%nat).
Proof. vm_compute. reflexivity. Qed.

(** ** Invariants across a whole run *)

Section SessionInvariant.
Variable P : World -> Prop.
Hypothesis P_claim : preserves P fast_set_claim.
Hypothesis P_prologue : forall now, preserves P (fast_set_prologue now).
Hypothesis P_serve : forall rs, preserves P (serve_all rs).
Hypothesis P_iteration : forall t n, preserves P (fast_set_iteration t n).
Hypothesis P_except : forall e, preserves P (fast_set_except e).
Hypothesis P_finally : preserves P fast_set_finally.

Lemma fast_set_loop_preserves (sched : nat -> Tick) (fuel : nat) :
  forall (pulses_sent : nat) (w : World) (o : Outcome unit),
    P w -> fast_set_loop fuel sched pulses_sent w = Some o -> P (final_world o).
Proof.
  induction fuel as [|fuel IH]; intros k w o Hw Hrun; cbn [fast_set_loop] in Hrun;
    [discriminate Hrun|].
  assert (Hstep : preserves P (serve_all (requests (sched k)) ;;
                               fast_set_iteration (sched k) (Z.of_nat k))).
  { apply preserves_bind; [apply P_serve|]. intros _. apply P_iteration. }
  specialize (Hstep w Hw).
  destruct ((serve_all (requests (sched k)) ;;
             fast_set_iteration (sched k) (Z.of_nat k)) w) as [[|] w'|e w'|w'];
    cbn [final_world] in Hstep.
  - apply (IH (S k) w' o Hstep Hrun).
  - injection Hrun as <-. exact Hstep.
  - injection Hrun as <-. exact Hstep.
  - injection Hrun as <-. exact Hstep.
Qed.

Lemma maybe_handle_fast_set_preserves (fuel : nat) (sched : Schedule)
    (w : World) (o : Outcome unit) :
  P w -> maybe_handle_fast_set fuel sched w = Some o -> P (final_world o).
Proof.
  intros Hw Hrun. unfold maybe_handle_fast_set in Hrun.
  pose proof (P_claim w Hw) as Hc.
  destruct (fast_set_claim w) as [[|] w1|e w1|w1]; cbn [final_world] in Hc;
    try (injection Hrun as <-; exact Hc).
  destruct (fast_set_try fuel sched w1) as [o1|] eqn:Htry; [|discriminate Hrun].
  injection Hrun as <-.
  assert (H1 : P (final_world o1)).
  { unfold fast_set_try in Htry. pose proof (P_prologue (plan_now sched) w1 Hc) as Hp.
    destruct (fast_set_prologue (plan_now sched) w1) as [[|] w2|e w2|w2];
      cbn [final_world] in Hp; try (injection Htry as <-; exact Hp).
    apply (fast_set_loop_preserves _ _ _ _ _ Hp Htry). }
  assert (H2 : P (final_world (except_with fast_set_except o1))).
  { destruct o1 as [a w2|e w2|w2]; cbn [except_with final_world] in *;
      try exact H1. apply P_except. exact H1. }
  destruct (except_with fast_set_except o1) as [a w3|e w3|w3];
    cbn [finally_with final_world] in *.
  - pose proof (P_finally w3 H2) as Hf.
    destruct (fast_set_finally w3); exact Hf.
  - pose proof (P_finally w3 H2) as Hf.
    destruct (fast_set_finally w3); exact Hf.
  - exact H2.
Qed.
End SessionInvariant.

Lemma serve_all_preserves (P : World -> Prop) (rs : list WebReq) :
  (forall r, preserves P (serve r)) -> preserves P (serve_all rs).
Proof.
  intros Hr. induction rs as [|r rs IH]; cbn [serve_all].
  - apply preserves_ret.
  - apply preserves_bind; [apply Hr|]. intros _. exact IH.
Qed.

Lemma op_keeps_offset (c : Z) (op : Op) (w : World) (o : Outcome unit) :
  offset_kept_or_normalized c w ->
  run_op op w = Some o ->
  offset_kept_or_normalized c (final_world o).
Proof.
  intros Hw Hrun. destruct op; cbn [run_op] in Hrun;
    try (injection Hrun as <-; revert w Hw;
         match goal with
         | |- forall w, _ -> _ (final_world (?m w)) =>
             change (preserves (offset_kept_or_normalized c) m)
         end;
         step_preserves; offset_leaf).
  revert Hw Hrun. apply maybe_handle_fast_set_preserves.
  - unfold fast_set_claim. step_preserves; offset_leaf.
  - intros now. unfold fast_set_prologue. step_preserves; offset_leaf.
  - intros rs. apply serve_all_preserves. intros r. step_preserves; offset_leaf.
  - intros t n. unfold fast_set_iteration. step_preserves; offset_leaf.
  - intros e. unfold fast_set_except. step_preserves; offset_leaf.
  - unfold fast_set_finally. step_preserves; offset_leaf.
Qed.

(** Whatever the two threads do, in whatever order, a normalized offset
    stays normalized: no operation writes [offset_minutes] except through
    the three above. *)
Theorem offset_normalized_always (ops : list Op) : forall (w : World) (o : Outcome unit),
  offset_normalized w ->
  run_ops ops w = Some o ->
  offset_normalized (final_world o).
Proof.
  induction ops as [|op ops IH]; intros w o Hw Hrun; cbn [run_ops] in Hrun.
  - injection Hrun as <-. exact Hw.
  - assert (Hstep : forall o1, run_op op w = Some o1 -> offset_normalized (final_world o1)).
    { intros o1 H1.
      destruct (op_keeps_offset (offset_minutes (STATE w)) op w o1) as [Heq|Hn];
        [left; reflexivity|exact H1| |exact Hn].
      unfold offset_normalized in *. rewrite Heq. exact Hw. }
    destruct (run_op op w) as [[[] w1|e w1|w1]|]; try discriminate Hrun.
    + apply (IH w1 o); [|exact Hrun]. exact (Hstep _ eq_refl).
    + injection Hrun as <-. exact (Hstep _ eq_refl).
    + injection Hrun as <-. exact (Hstep _ eq_refl).
Qed.

(** In particular for a process started from [State()]. *)
Corollary offset_normalized_from_start (ops : list Op) (o : Outcome unit) :
  run_ops ops World_initial = Some o ->
  offset_normalized (final_world o).
Proof.
  apply offset_normalized_always. unfold offset_normalized. cbn. lia.
Qed.

(** * Further properties of the code *)

(** ** Reading and writing clock texts *)

Section ClockTexts.
Variable py_strip : string -> string.
Variable py_int : string -> option Z.

(** X1. What [parse_hhmm] returns is the pair of integers read on both
    sides of the first colon of the stripped text, and it lies in
    0..23 x 0..59. *)
Theorem parse_hhmm_validates (s : string) (h m : Z) :
  parse_hhmm py_strip py_int s = ParsedTime h m ->
  0 <= h <= 23 /\ 0 <= m <= 59 /\
  exists hh mm,
    split_colon (py_strip s) = Some (hh, mm) /\
    py_int hh = Some h /\ py_int mm = Some m.
Proof.
  unfold parse_hhmm.
  destruct (split_colon (py_strip s)) as [[hh mm]|]; [|discriminate].
  destruct (py_int hh) as [h'|] eqn:Hh; [|discriminate].
  destruct (py_int mm) as [m'|] eqn:Hm; [|discriminate].
  destruct (Z.leb_spec 0 h'); destruct (Z.leb_spec h' 23); cbn [andb negb];
    try discriminate.
  destruct (Z.leb_spec 0 m'); destruct (Z.leb_spec m' 59); cbn [andb negb];
    try discriminate.
  intros Hres. injection Hres as <- <-.
  repeat split; try lia. exists hh, mm. auto.
Qed.

(** X2. The format error is raised exactly for the texts that have no
    colon once stripped, before any conversion is tried; and the hour is
    judged before the minute. *)
Theorem parse_hhmm_errors (s : string) :
  (parse_hhmm py_strip py_int s = ValueError ErrFormat <->
   split_colon (py_strip s) = None) /\
  (forall hh mm h m,
      split_colon (py_strip s) = Some (hh, mm) ->
      py_int hh = Some h -> py_int mm = Some m ->
      ~ 0 <= h <= 23 ->
      parse_hhmm py_strip py_int s = ValueError ErrHour).
Proof.
  unfold parse_hhmm. split.
  - destruct (split_colon (py_strip s)) as [[hh mm]|]; [|tauto].
    split; [|discriminate].
    destruct (py_int hh); [|discriminate].
    destruct (py_int mm); [|discriminate].
    destruct (negb _); [discriminate|]. destruct (negb _); discriminate.
  - intros hh mm h m -> -> -> Hh.
    destruct (Z.leb_spec 0 h); destruct (Z.leb_spec h 23); cbn [andb negb];
      try reflexivity. lia.
Qed.
End ClockTexts.

Lemma parse_hhmm_validates_witness :
  0 <= 11 <= 23 /\ 0 <= 55 <= 59 /\
  exists hh mm,
    split_colon ((fun s => s) "11:55"%string) = Some (hh, mm) /\
    two_digit_value hh = Some 11 /\ two_digit_value mm = Some 55.
Proof.
  apply (parse_hhmm_validates (fun s => s) two_digit_value "11:55"%string 11 55).
  reflexivity.
Defined.

Lemma fmt_02d_two_digits (n : Z) :
  0 <= n <= 99 -> two_digit_value (fmt_02d n) = Some n.
Proof.
  intros Hn.
  assert (Hall : forallb
            (fun k => match two_digit_value (fmt_02d (Z.of_nat k)) with
                      | Some v => v =? Z.of_nat k
                      | None => false
                      end) (seq 0 100) = true) by (vm_compute; reflexivity).
  rewrite forallb_forall in Hall.
  specialize (Hall (Z.to_nat n)).
  rewrite Z2Nat.id in Hall by lia.
  assert (Hin : In (Z.to_nat n) (seq 0 100)) by (apply in_seq; lia).
  specialize (Hall Hin).
  destruct (two_digit_value (fmt_02d n)) as [v|]; [|discriminate].
  apply Z.eqb_eq in Hall. congruence.
Qed.

(** X3. The text shown for a dial position has the form [hh:mm] with the
    hour in 1..12 and the minute in 0..59, each written with two digits,
    and it names the position: [hh*60+mm] is [m] modulo 720. *)
Theorem minutes_to_hhmm_12h_names_position (m : Z) :
  exists h mm,
    minutes_to_hhmm_12h m = (fmt_02d h ++ ":" ++ fmt_02d mm)%string /\
    1 <= h <= 12 /\ 0 <= mm <= 59 /\
    two_digit_value (fmt_02d h) = Some h /\
    two_digit_value (fmt_02d mm) = Some mm /\
    (h * 60 + mm) mod 720 = m mod 720.
Proof.
  unfold minutes_to_hhmm_12h. cbv zeta.
  set (m' := m mod 720).
  assert (Hm' : 0 <= m' < 720) by (apply Z.mod_pos_bound; lia).
  assert (Hq : 0 <= m' / 60 < 12).
  { split; [apply Z.div_pos; lia|apply Z.div_lt_upper_bound; lia]. }
  assert (Hr : 0 <= m' mod 60 < 60) by (apply Z.mod_pos_bound; lia).
  assert (Hdm : m' = 60 * (m' / 60) + m' mod 60) by (apply Z.div_mod; lia).
  rewrite (Z.mod_small (m' / 60) 12) by lia.
  eexists. eexists. split; [reflexivity|].
  destruct (Z.eqb_spec (m' / 60) 0) as [E|E].
  - repeat split; try lia; try (apply fmt_02d_two_digits; lia).
    replace (12 * 60 + m' mod 60) with (m' + 1 * 720) by lia.
    rewrite Z.mod_add by lia. apply Z.mod_small. lia.
  - repeat split; try lia; try (apply fmt_02d_two_digits; lia).
    replace (m' / 60 * 60 + m' mod 60) with m' by lia.
    apply Z.mod_small. lia.
Qed.

Lemma digit_is_no_colon (a : ascii) (v : Z) :
  digit_value a = Some v -> Ascii.eqb a ":" = false.
Proof.
  intros Hd. destruct (Ascii.eqb_spec a ":") as [->|]; [|reflexivity].
  vm_compute in Hd. discriminate.
Qed.

Lemma split_colon_two_digits (x y : string) :
  two_digit_value x <> None ->
  split_colon (x ++ ":" ++ y) = Some (x, y).
Proof.
  intros Hx. destruct x as [|a [|b [|c x]]]; cbn in Hx; try congruence.
  destruct (digit_value a) as [va|] eqn:Ha; [|congruence].
  destruct (digit_value b) as [vb|] eqn:Hb; [|congruence].
  cbn. rewrite (digit_is_no_colon a va Ha), (digit_is_no_colon b vb Hb).
  reflexivity.
Qed.

Section ShownTimes.
Variable py_strip : string -> string.
Variable py_int : string -> option Z.
(** [strip] leaves a text of the form dd:dd as it is, and [int] reads two
    decimal digits as their decimal value. *)
Hypothesis strip_clock_text : forall x y,
  two_digit_value x <> None -> two_digit_value y <> None ->
  py_strip (x ++ ":" ++ y) = (x ++ ":" ++ y)%string.
Hypothesis int_two_digits : forall x v,
  two_digit_value x = Some v -> py_int x = Some v.

(** X4. The text [minutes_to_hhmm_12h] shows is accepted by [parse_hhmm],
    and the reading it yields is the position shown, modulo 720. *)
Theorem parse_hhmm_of_shown_time (m : Z) :
  exists h mm,
    parse_hhmm py_strip py_int (minutes_to_hhmm_12h m) = ParsedTime h mm /\
    py_strip (minutes_to_hhmm_12h m) = minutes_to_hhmm_12h m /\
    (h * 60 + mm) mod 720 = m mod 720.
Proof.
  destruct (minutes_to_hhmm_12h_names_position m)
    as (h & mm & Htext & Hh & Hmm & Hdh & Hdm & Hpos).
  exists h, mm. rewrite Htext.
  assert (Hs : py_strip (fmt_02d h ++ ":" ++ fmt_02d mm) =
               (fmt_02d h ++ ":" ++ fmt_02d mm)%string)
    by (apply strip_clock_text; congruence).
  split; [|split; assumption].
  unfold parse_hhmm. rewrite Hs, split_colon_two_digits by congruence.
  rewrite (int_two_digits _ _ Hdh), (int_two_digits _ _ Hdm).
  destruct (Z.leb_spec 0 h); destruct (Z.leb_spec h 23); try lia.
  destruct (Z.leb_spec 0 mm); destruct (Z.leb_spec mm 59); try lia.
  reflexivity.
Qed.

Lemma index_run (now : datetime) (w : World) :
  LOCK w = false ->
  index now w =
  Returns
    (mk_StatusView now
       (minutes_to_hhmm_12h
          (if has_offset (STATE w)
           then (to_12h_minutes now + offset_minutes (STATE w)) mod 720
           else to_12h_minutes now))
       (if has_offset (STATE w) then offset_minutes (STATE w) else 0)
       (has_offset (STATE w)) (stall_remaining_minutes (STATE w))
       (fast_set_running (STATE w)) (fast_set_status (STATE w))) w.
Proof.
  intros Hl. unfold index.
  erewrite bind_Returns by (apply current_estimated_dial_minutes_run; exact Hl).
  unfold_py. rewrite Hl. break_world w. reflexivity.
Qed.

(** X5. Typing the dial time shown on the status page into the set-dial
    form leaves the dial estimate where it was: the page, the parser and
    [set_dial_reading] agree. *)
Theorem set_dial_of_shown_time (now : datetime) (w : World) :
  LOCK w = false ->
  exists view d w',
    index now w = Returns view w /\
    current_estimated_dial_minutes now w = Returns d w /\
    set_dial py_strip py_int (Some (view_dial_time view)) now w =
      Served (Returns tt w') /\
    current_estimated_dial_minutes now w' = Returns d w'.
Proof.
  intros Hl. rewrite (index_run now w Hl).
  rewrite (current_estimated_dial_minutes_run now w Hl).
  set (d := if has_offset (STATE w)
            then (to_12h_minutes now + offset_minutes (STATE w)) mod 720
            else to_12h_minutes now).
  assert (Hd : d mod 720 = d).
  { subst d. destruct (has_offset (STATE w)); unfold to_12h_minutes;
      apply Z.mod_mod; lia. }
  destruct (parse_hhmm_of_shown_time d) as (h & mm & Hparse & Hstrip & Hpos).
  destruct (set_dial_reading_run h mm now w Hl) as (w' & Hset & Hl' & _ & _ & _ & Hst).
  eexists. exists d, w'. split; [reflexivity|]. split; [reflexivity|].
  cbn [view_dial_time]. unfold set_dial. rewrite Hstrip, Hparse, Hset.
  split; [reflexivity|].
  rewrite (current_estimated_dial_minutes_run now w' Hl'), Hst. cbn.
  f_equal. rewrite Z.add_mod_idemp_r by lia.
  replace (to_12h_minutes now + ((h * 60 + mm) mod 720 - to_12h_minutes now))
    with ((h * 60 + mm) mod 720) by lia.
  rewrite Z.mod_mod by lia. congruence.
Qed.
End ShownTimes.

Lemma identity_keeps_clock_text (x y : string) :
  two_digit_value x <> None -> two_digit_value y <> None ->
  (fun s : string => s) (x ++ ":" ++ y)%string = (x ++ ":" ++ y)%string.
Proof. reflexivity. Qed.

Lemma two_digit_value_reads (x : string) (v : Z) :
  two_digit_value x = Some v -> two_digit_value x = Some v.
Proof. intros H. exact H. Qed.

Lemma parse_hhmm_of_shown_time_witness :
  exists h mm,
    parse_hhmm (fun s => s) two_digit_value (minutes_to_hhmm_12h 715) = ParsedTime h mm /\
    (fun s : string => s) (minutes_to_hhmm_12h 715) = minutes_to_hhmm_12h 715 /\
    (h * 60 + mm) mod 720 = 715 mod 720.
Proof.
  apply (parse_hhmm_of_shown_time (fun s => s) two_digit_value
           identity_keeps_clock_text two_digit_value_reads 715).
Defined.

Lemma set_dial_of_shown_time_witness :
  exists view d w',
    index midnight (World_with (State_with_offset 715)) =
      Returns view (World_with (State_with_offset 715)) /\
    current_estimated_dial_minutes midnight (World_with (State_with_offset 715)) =
      Returns d (World_with (State_with_offset 715)) /\
    set_dial (fun s => s) two_digit_value (Some (view_dial_time view)) midnight
      (World_with (State_with_offset 715)) = Served (Returns tt w') /\
    current_estimated_dial_minutes midnight w' = Returns d w'.
Proof.
  apply (set_dial_of_shown_time (fun s => s) two_digit_value
           identity_keeps_clock_text two_digit_value_reads midnight
           (World_with (State_with_offset 715))).
  reflexivity.
Defined.

Example shown_time_of_scenario_A : minutes_to_hhmm_12h 715 = "11:55"%string.
Proof. reflexivity. Qed.

(** ** More on the planner and the offset *)

Lemma compute_fast_or_stall_plan_without_offset (now : datetime) (w : World) :
  LOCK w = false ->
  has_offset (STATE w) = false ->
  compute_fast_or_stall_plan now w = Returns (0, 0) w.
Proof.
  intros Hl Hh. unfold compute_fast_or_stall_plan, bind.
  rewrite (current_estimated_dial_minutes_run now w Hl), Hh.
  rewrite Z.sub_diag. reflexivity.
Qed.

(** X6. The plan does not depend on the clock reading: it is a function of
    [has_offset] and [offset_minutes] alone, so recomputing it later in a
    session gives the same answer unless the offset was written. *)
Theorem compute_fast_or_stall_plan_ignores_clock (now now' : datetime) (w : World) :
  LOCK w = false ->
  compute_fast_or_stall_plan now w = compute_fast_or_stall_plan now' w.
Proof.
  intros Hl. destruct (has_offset (STATE w)) eqn:Hh.
  - rewrite !compute_fast_or_stall_plan_by_offset by assumption. reflexivity.
  - rewrite !compute_fast_or_stall_plan_without_offset by assumption. reflexivity.
Qed.

Lemma compute_fast_or_stall_plan_ignores_clock_witness :
  compute_fast_or_stall_plan midnight (World_with (State_with_offset 715)) =
  compute_fast_or_stall_plan (mk_datetime 2024 1 1 7 30 0)
    (World_with (State_with_offset 715)).
Proof.
  apply (compute_fast_or_stall_plan_ignores_clock midnight
           (mk_datetime 2024 1 1 7 30 0) (World_with (State_with_offset 715))).
  reflexivity.
Defined.

(** X7. The plan never asks for both: it returns a stall of 0..359 minutes
    or an advance of 0..360 minutes, one of them 0; without an offset it is
    (0, 0); and it is (0, 0) exactly when the estimated dial position is the
    system's. *)
Theorem compute_fast_or_stall_plan_bounds (now : datetime) (w : World) :
  LOCK w = false ->
  exists stall adv dial_m,
    compute_fast_or_stall_plan now w = Returns (stall, adv) w /\
    current_estimated_dial_minutes now w = Returns dial_m w /\
    0 <= stall <= 359 /\ 0 <= adv <= 360 /\
    (stall = 0 \/ adv = 0) /\
    (has_offset (STATE w) = false -> stall = 0 /\ adv = 0) /\
    (stall = 0 /\ adv = 0 <-> dial_m = to_12h_minutes now).
Proof.
  intros Hl.
  unfold compute_fast_or_stall_plan, bind.
  rewrite (current_estimated_dial_minutes_run now w Hl).
  set (sys_m := to_12h_minutes now).
  assert (Hsys : 0 <= sys_m < 720) by (apply Z.mod_pos_bound; lia).
  set (dial_m := if has_offset (STATE w)
                 then (sys_m + offset_minutes (STATE w)) mod 720 else sys_m).
  assert (Hdial : 0 <= dial_m < 720).
  { subst dial_m. destruct (has_offset (STATE w)); [apply Z.mod_pos_bound|]; lia. }
  assert (Hfalse : has_offset (STATE w) = false -> dial_m = sys_m).
  { subst dial_m. intros ->. reflexivity. }
  pose proof (Z.mod_pos_bound (sys_m - dial_m) 720 ltac:(lia)) as Hd.
  assert (Hzero : (sys_m - dial_m) mod 720 = 0 <-> dial_m = sys_m).
  { split.
    - intros H0. apply Z.mod_divide in H0; [|lia]. destruct H0 as [q Hq]. lia.
    - intros ->. rewrite Z.sub_diag. reflexivity. }
  destruct (Z.eqb_spec ((sys_m - dial_m) mod 720) 0) as [E|E];
    [|destruct (Z.gtb_spec ((sys_m - dial_m) mod 720) 360)];
    eexists; eexists; exists dial_m; (split; [reflexivity|]);
    (split; [reflexivity|]); repeat split; try lia; try tauto;
    try (intros Hno; specialize (Hfalse Hno); tauto).
Qed.

Lemma compute_fast_or_stall_plan_bounds_witness :
  exists stall adv dial_m,
    compute_fast_or_stall_plan midnight (World_with (State_with_offset 5)) =
      Returns (stall, adv) (World_with (State_with_offset 5)) /\
    current_estimated_dial_minutes midnight (World_with (State_with_offset 5)) =
      Returns dial_m (World_with (State_with_offset 5)) /\
    0 <= stall <= 359 /\ 0 <= adv <= 360 /\
    (stall = 0 \/ adv = 0) /\
    (has_offset (STATE (World_with (State_with_offset 5))) = false ->
     stall = 0 /\ adv = 0) /\
    (stall = 0 /\ adv = 0 <-> dial_m = to_12h_minutes midnight).
Proof.
  apply (compute_fast_or_stall_plan_bounds midnight (World_with (State_with_offset 5))).
  reflexivity.
Defined.

Lemma stall_times_run (n : nat) : forall (i : nat) (w : World),
  LOCK w = false ->
  has_offset (STATE w) = true ->
  exists w',
    for_range_from i n (fun _ => update_offset_after_stall_or_advance 1 0) w =
      Returns tt w' /\
    LOCK w' = false /\
    has_offset (STATE w') = true /\
    offset_minutes (STATE w') mod 720 =
      (offset_minutes (STATE w) - Z.of_nat n) mod 720.
Proof.
  induction n as [|n IH]; intros i w Hl Hh; cbn [for_range_from].
  - exists w. repeat split; try assumption.
    rewrite Z.sub_0_r. reflexivity.
  - destruct (update_offset_after_stall_or_advance_run 1 0 w Hl)
      as (w1 & Hrun & Hl1 & Hh1 & Hoff1).
    rewrite Hh in Hh1, Hoff1. cbn in Hoff1.
    destruct (IH (S i) w1 Hl1 Hh1) as (w' & Hrun' & Hl' & Hh' & Hoff').
    exists w'. erewrite bind_Returns by exact Hrun.
    repeat split; try assumption.
    rewrite Hoff', Hoff1, Zminus_mod_idemp_l.
    f_equal. lia.
Qed.

(** X8. The stall side of the bookkeeping: if the planner says the dial is
    [stall] minutes ahead, recording [stall] stalled minutes one at a time
    leaves the planner returning (0, 0). *)
Theorem stall_times_reaches_alignment (now : datetime) (stall : Z) (w : World) :
  LOCK w = false ->
  has_offset (STATE w) = true ->
  compute_fast_or_stall_plan now w = Returns (stall, 0) w ->
  exists w',
    stall_times (Z.to_nat stall) w = Returns tt w' /\
    compute_fast_or_stall_plan now w' = Returns (0, 0) w'.
Proof.
  intros Hl Hh Hplan.
  rewrite (compute_fast_or_stall_plan_by_offset now w Hl Hh) in Hplan.
  cbv zeta in Hplan.
  pose proof (Z.mod_pos_bound (- offset_minutes (STATE w)) 720 ltac:(lia)) as Hb.
  assert (Hst : 0 <= stall /\
                (stall + (- offset_minutes (STATE w)) mod 720) mod 720 = 0).
  { apply Returns_value_eq in Hplan. revert Hplan.
    destruct (Z.eqb_spec ((- offset_minutes (STATE w)) mod 720) 0) as [E|E];
      [|destruct (Z.gtb_spec ((- offset_minutes (STATE w)) mod 720) 360)];
      intros Hplan; apply pair_equal_spec in Hplan; destruct Hplan as [H1 H2].
    - subst stall. rewrite E. split; [lia|reflexivity].
    - subst stall. split; [lia|].
      replace (720 - (- offset_minutes (STATE w)) mod 720 +
               (- offset_minutes (STATE w)) mod 720) with (1 * 720) by lia.
      apply Z.mod_mul. lia.
    - lia. }
  destruct Hst as [Hpos Hsum].
  destruct (stall_times_run (Z.to_nat stall) 0 w Hl Hh)
    as (w' & Hrun & Hl' & Hh' & Hoff).
  exists w'. split; [exact Hrun|].
  rewrite (compute_fast_or_stall_plan_by_offset now w' Hl' Hh'). cbv zeta.
  assert (Hz : (- offset_minutes (STATE w')) mod 720 = 0).
  { rewrite Z2Nat.id in Hoff by lia.
    replace (- offset_minutes (STATE w')) with (0 - offset_minutes (STATE w')) by lia.
    rewrite <- Zminus_mod_idemp_r, Hoff, Zminus_mod_idemp_r.
    replace (0 - (offset_minutes (STATE w) - stall))
      with (stall + - offset_minutes (STATE w)) by lia.
    rewrite <- Zplus_mod_idemp_r. exact Hsum. }
  rewrite Hz. reflexivity.
Qed.

(** The dial reads 00:05 at 00:00: five stalled minutes align it. *)
Lemma stall_times_reaches_alignment_witness :
  exists w',
    stall_times (Z.to_nat 5) (World_with (State_with_offset 5)) = Returns tt w' /\
    compute_fast_or_stall_plan midnight w' = Returns (0, 0) w'.
Proof.
  apply (stall_times_reaches_alignment midnight 5 (World_with (State_with_offset 5))).
  - reflexivity.
  - reflexivity.
  - reflexivity.
Defined.

Lemma mod_720_step (x s a : Z) :
  (x mod 720 - s + a) mod 720 = (x - s + a) mod 720.
Proof.
  replace (x mod 720 - s + a) with (x mod 720 + (a - s)) by lia.
  rewrite Zplus_mod_idemp_l. f_equal. lia.
Qed.

(** X9. The bookkeeping is additive: on a normalized offset, recording
    [(s1, a1)] and then [(s2, a2)] leaves the same offset as recording
    [(s1 + s2, a1 + a2)] at once; one stalled and one advanced minute
    cancel. *)
Theorem update_offset_after_stall_or_advance_additive (s1 a1 s2 a2 : Z) (w : World) :
  LOCK w = false ->
  offset_normalized w ->
  exists w1 w2 w12,
    update_offset_after_stall_or_advance s1 a1 w = Returns tt w1 /\
    update_offset_after_stall_or_advance s2 a2 w1 = Returns tt w2 /\
    update_offset_after_stall_or_advance (s1 + s2) (a1 + a2) w = Returns tt w12 /\
    offset_minutes (STATE w2) = offset_minutes (STATE w12) /\
    has_offset (STATE w2) = has_offset (STATE w12).
Proof.
  intros Hl Hn. unfold offset_normalized in Hn.
  destruct (update_offset_after_stall_or_advance_run s1 a1 w Hl)
    as (w1 & Hr1 & Hl1 & Hh1 & Ho1).
  destruct (update_offset_after_stall_or_advance_run s2 a2 w1 Hl1)
    as (w2 & Hr2 & Hl2 & Hh2 & Ho2).
  destruct (update_offset_after_stall_or_advance_run (s1 + s2) (a1 + a2) w Hl)
    as (w12 & Hr12 & Hl12 & Hh12 & Ho12).
  exists w1, w2, w12. repeat split; try assumption; [|congruence].
  rewrite Ho2, Ho12, Hh1, Ho1.
  destruct (has_offset (STATE w)); cbn [negb orb];
    [|rewrite !orb_true_r; reflexivity].
  rewrite !orb_false_r.
  destruct (Z.eqb_spec s1 0); destruct (Z.eqb_spec a1 0);
    destruct (Z.eqb_spec s2 0); destruct (Z.eqb_spec a2 0);
    destruct (Z.eqb_spec (s1 + s2) 0); destruct (Z.eqb_spec (a1 + a2) 0);
    cbn [andb]; subst; try lia; rewrite ?mod_720_step;
    try reflexivity;
    try (f_equal; lia);
    try (symmetry; apply Z.mod_small; lia);
    try (rewrite <- (Z.mod_small (offset_minutes (STATE w)) 720) at 2 by lia;
         f_equal; lia).
Qed.

Lemma update_offset_after_stall_or_advance_additive_witness :
  exists w1 w2 w12,
    update_offset_after_stall_or_advance 1 0 (World_with (State_with_offset 0)) =
      Returns tt w1 /\
    update_offset_after_stall_or_advance 0 1 w1 = Returns tt w2 /\
    update_offset_after_stall_or_advance (1 + 0) (0 + 1)
      (World_with (State_with_offset 0)) = Returns tt w12 /\
    offset_minutes (STATE w2) = offset_minutes (STATE w12) /\
    has_offset (STATE w2) = has_offset (STATE w12).
Proof.
  apply (update_offset_after_stall_or_advance_additive 1 0 0 1
           (World_with (State_with_offset 0))).
  - reflexivity.
  - unfold offset_normalized. cbn. lia.
Defined.

(** X10. Hours are read on a 12-hour dial: declaring [hh + 12] has the
    same effect as declaring [hh]. *)
Theorem set_dial_reading_folds_half_days (hh mm : Z) (now : datetime) (w : World) :
  set_dial_reading (hh + 12) mm now w = set_dial_reading hh mm now w.
Proof.
  unfold set_dial_reading.
  replace (((hh + 12) * 60 + mm) mod 720) with ((hh * 60 + mm) mod 720).
  - reflexivity.
  - replace ((hh + 12) * 60 + mm) with (hh * 60 + mm + 1 * 720) by lia.
    rewrite Z.mod_add by lia. reflexivity.
Qed.

(** X11. After the operator has declared the dial at system time [now],
    the plan is the cyclic distance from the declared reading to the
    system's minutes, at whatever time it is computed; declaring the
    system's own time gives (0, 0). *)
Theorem set_dial_reading_then_plan (hh mm : Z) (now : datetime) (w : World) :
  LOCK w = false ->
  exists w',
    set_dial_reading hh mm now w = Returns tt w' /\
    (forall now',
        compute_fast_or_stall_plan now' w' =
        Returns (let delta := (to_12h_minutes now - (hh * 60 + mm)) mod 720 in
                 if delta =? 0 then (0, 0)
                 else if delta >? 360 then (720 - delta, 0) else (0, delta)) w') /\
    (hh = hour now -> mm = minute now ->
     forall now', compute_fast_or_stall_plan now' w' = Returns (0, 0) w').
Proof.
  intros Hl.
  destruct (set_dial_reading_run hh mm now w Hl) as (w' & Hset & Hl' & _ & _ & _ & Hst).
  exists w'. split; [exact Hset|].
  assert (Hplan : forall now',
             compute_fast_or_stall_plan now' w' =
             Returns (let delta := (to_12h_minutes now - (hh * 60 + mm)) mod 720 in
                      if delta =? 0 then (0, 0)
                      else if delta >? 360 then (720 - delta, 0) else (0, delta)) w').
  { intros now'.
    rewrite (compute_fast_or_stall_plan_by_offset now' w' Hl') by (rewrite Hst; reflexivity).
    rewrite Hst. cbn [offset_minutes set_stall_remaining_minutes set_has_offset
                        set_offset_minutes].
    replace ((- (((hh * 60 + mm) mod 720 - to_12h_minutes now) mod 720)) mod 720)
      with ((to_12h_minutes now - (hh * 60 + mm)) mod 720); [reflexivity|].
    replace (- (((hh * 60 + mm) mod 720 - to_12h_minutes now) mod 720))
      with (0 - ((hh * 60 + mm) mod 720 - to_12h_minutes now) mod 720) by lia.
    rewrite Zminus_mod_idemp_r.
    replace (0 - ((hh * 60 + mm) mod 720 - to_12h_minutes now))
      with (to_12h_minutes now - (hh * 60 + mm) mod 720) by lia.
    rewrite Zminus_mod_idemp_r. reflexivity. }
  split; [exact Hplan|].
  intros -> -> now'. rewrite Hplan. cbv zeta.
  replace ((to_12h_minutes now - (hour now * 60 + minute now)) mod 720) with 0;
    [reflexivity|].
  unfold to_12h_minutes. rewrite Zminus_mod_idemp_l, Z.sub_diag. reflexivity.
Qed.

Lemma set_dial_reading_then_plan_witness :
  exists w',
    set_dial_reading 11 55 midnight World_initial = Returns tt w' /\
    (forall now',
        compute_fast_or_stall_plan now' w' =
        Returns (let delta := (to_12h_minutes midnight - (11 * 60 + 55)) mod 720 in
                 if delta =? 0 then (0, 0)
                 else if delta >? 360 then (720 - delta, 0) else (0, delta)) w') /\
    (11 = hour midnight -> 55 = minute midnight ->
     forall now', compute_fast_or_stall_plan now' w' = Returns (0, 0) w').
Proof.
  apply (set_dial_reading_then_plan 11 55 midnight World_initial).
  reflexivity.
Defined.

(** ** The state file *)

Lemma restore_state_run (w : World) :
  LOCK w = false ->
  restore_state w =
  Returns tt
    (match STATE_FILE w with
     | FileData IntAbsent b =>
         set_STATE (set_has_offset (bool_of_field b)
                      (set_offset_minutes 0 (STATE w))) w
     | FileData (IntValue z) b =>
         set_STATE (set_has_offset (bool_of_field b)
                      (set_offset_minutes (z mod 720) (STATE w))) w
     | _ => w
     end).
Proof.
  intros Hl. unfold restore_state, json_load, int_of_field. unfold_py.
  destruct (STATE_FILE w) as [| |[|z|] b]; try reflexivity;
    rewrite Hl; break_world w; reflexivity.
Qed.

(** X12. What survives a restart: after [persist_state] on a writable disk,
    a process started anew that runs [restore_state] has the old
    [has_offset] and the old offset reduced mod 720, and everything else
    as in [State()]; the stall counter, the tick guards and the session
    flags are not carried over. *)
Theorem persist_then_restart (w : World) :
  LOCK w = false ->
  disk_writable w = true ->
  exists w1 w2,
    persist_state w = Returns tt w1 /\
    STATE w1 = STATE w /\
    restore_state (restart w1) = Returns tt w2 /\
    STATE w2 =
      set_has_offset (has_offset (STATE w))
        (set_offset_minutes (offset_minutes (STATE w) mod 720) State_default).
Proof.
  intros Hl Hd. rewrite (persist_state_run w Hl), Hd.
  eexists. eexists. split; [reflexivity|]. split; [reflexivity|].
  rewrite restore_state_run by reflexivity. cbn. split; reflexivity.
Qed.

(** A stall of 3 minutes is pending when the state is saved. *)
Lemma persist_then_restart_witness :
  exists w1 w2,
    persist_state (World_with (set_stall_remaining_minutes 3 (State_with_offset 3))) =
      Returns tt w1 /\
    STATE w1 = STATE (World_with (set_stall_remaining_minutes 3 (State_with_offset 3))) /\
    restore_state (restart w1) = Returns tt w2 /\
    STATE w2 =
      set_has_offset
        (has_offset (STATE (World_with (set_stall_remaining_minutes 3 (State_with_offset 3)))))
        (set_offset_minutes
           (offset_minutes
              (STATE (World_with (set_stall_remaining_minutes 3 (State_with_offset 3))))
            mod 720) State_default).
Proof.
  apply (persist_then_restart
           (World_with (set_stall_remaining_minutes 3 (State_with_offset 3)))).
  - reflexivity.
  - reflexivity.
Defined.

(** X13. [restore_state] never raises and writes both fields or none: with
    no file, an unreadable file, or an [offset_minutes] entry that [int]
    rejects, the world is left exactly as it was, [has_offset] included;
    a missing entry counts as offset 0, resp. [has_offset] false; the
    stored offset is reduced mod 720.  Only these two fields are written. *)
Theorem restore_state_all_or_nothing (w : World) :
  LOCK w = false ->
  exists w',
    restore_state w = Returns tt w' /\
    (STATE_FILE w = FileMissing \/ STATE_FILE w = FileCorrupt \/
     (exists b, STATE_FILE w = FileData IntInvalid b) -> w' = w) /\
    (forall z b, STATE_FILE w = FileData (IntValue z) b ->
                 offset_minutes (STATE w') = z mod 720 /\
                 has_offset (STATE w') = bool_of_field b) /\
    (forall b, STATE_FILE w = FileData IntAbsent b ->
               offset_minutes (STATE w') = 0 /\
               has_offset (STATE w') = bool_of_field b) /\
    set_has_offset (has_offset (STATE w))
      (set_offset_minutes (offset_minutes (STATE w)) (STATE w')) = STATE w /\
    A_RELAY w' = A_RELAY w /\ B_RELAY w' = B_RELAY w /\
    pulses w' = pulses w /\ STATE_FILE w' = STATE_FILE w /\ LOCK w' = false.
Proof.
  intros Hl. eexists. split; [apply restore_state_run; exact Hl|].
  destruct (STATE_FILE w) as [| |[|z|] b] eqn:Hf;
    (split; [intros [H|[H|[b' H]]]; try discriminate H; try reflexivity|]);
    (split; [intros z' b' H; try discriminate H;
             try (injection H as <- <-; split; reflexivity)|]);
    (split; [intros b' H; try discriminate H;
             try (injection H as <-; split; reflexivity)|]);
    break_world w; cbn; repeat split; try reflexivity; try assumption.
Qed.

Lemma restore_state_all_or_nothing_witness :
  exists w',
    restore_state World_bad_file = Returns tt w' /\
    (STATE_FILE World_bad_file = FileMissing \/
     STATE_FILE World_bad_file = FileCorrupt \/
     (exists b, STATE_FILE World_bad_file = FileData IntInvalid b) ->
     w' = World_bad_file) /\
    (forall z b, STATE_FILE World_bad_file = FileData (IntValue z) b ->
                 offset_minutes (STATE w') = z mod 720 /\
                 has_offset (STATE w') = bool_of_field b) /\
    (forall b, STATE_FILE World_bad_file = FileData IntAbsent b ->
               offset_minutes (STATE w') = 0 /\
               has_offset (STATE w') = bool_of_field b) /\
    set_has_offset (has_offset (STATE World_bad_file))
      (set_offset_minutes (offset_minutes (STATE World_bad_file)) (STATE w')) =
      STATE World_bad_file /\
    A_RELAY w' = A_RELAY World_bad_file /\ B_RELAY w' = B_RELAY World_bad_file /\
    pulses w' = pulses World_bad_file /\
    STATE_FILE w' = STATE_FILE World_bad_file /\ LOCK w' = false.
Proof.
  apply (restore_state_all_or_nothing World_bad_file).
  reflexivity.
Defined.

(** ** The minute tick *)

Lemma gtb_false_of_le (x y : Z) : x <= y -> (x >? y) = false.
Proof. intros H. destruct (Z.gtb_spec x y); [lia|reflexivity]. Qed.

Lemma pulse_a_leaves_A_off (width : Z) :
  preserves (fun w => A_RELAY w = false) (pulse_a width).
Proof. intros w _. reflexivity. Qed.

#[local] Hint Resolve pulse_a_leaves_A_off : preserves_db.

Lemma run_correction_burst_keeps_A_off (now : datetime) :
  preserves (fun w => A_RELAY w = false) (run_correction_burst_once_per_hour now).
Proof.
  step_preserves;
    first [ intros b w; reflexivity | intros; assumption ].
Qed.

Lemma minute_tick_actions_duplicate (now : datetime) (w : World) :
  LOCK w = false ->
  guard_is minute_key_eqb (last_minute_tick (STATE w)) (minute_key now) = true ->
  minute_tick_actions now w = Returns tt w.
Proof.
  intros Hl Hg. unfold minute_tick_actions. unfold_py.
  rewrite Hl. cbn. rewrite Hg. break_world w. reflexivity.
Qed.

Lemma minute_tick_actions_running (now : datetime) (w : World) :
  LOCK w = false ->
  guard_is minute_key_eqb (last_minute_tick (STATE w)) (minute_key now) = false ->
  fast_set_running (STATE w) = true ->
  minute_tick_actions now w =
  Returns tt (set_STATE (set_last_minute_tick (Some (minute_key now)) (STATE w)) w).
Proof.
  intros Hl Hg Hr. unfold minute_tick_actions. unfold_py.
  rewrite Hl. cbn. rewrite Hg. cbn. rewrite Hr. break_world w. reflexivity.
Qed.

Lemma minute_tick_actions_normal (now : datetime) (w : World) :
  LOCK w = false ->
  guard_is minute_key_eqb (last_minute_tick (STATE w)) (minute_key now) = false ->
  fast_set_running (STATE w) = false ->
  stall_remaining_minutes (STATE w) <= 0 ->
  exists w',
    minute_tick_actions now w = Returns tt w' /\
    LOCK w' = false /\
    pulses w' =
      pulses w ++
      minute_pulses now
        (negb (guard_is hour_key_eqb (last_correction_hour (STATE w)) (hour_key now))) /\
    set_last_correction_hour (last_correction_hour (STATE w)) (STATE w') =
      set_last_minute_tick (Some (minute_key now)) (STATE w) /\
    (minute now = 59 -> last_correction_hour (STATE w') = Some (hour_key now)) /\
    (minute now <> 59 -> last_correction_hour (STATE w') = last_correction_hour (STATE w)) /\
    A_RELAY w' = false.
Proof.
  intros Hl Hg Hr Hs. unfold minute_tick_actions. cbv zeta.
  erewrite bind_Returns.
  2:{ unfold_py. rewrite Hl. cbn. rewrite Hg. cbn. rewrite Hr.
      rewrite (gtb_false_of_le _ _ Hs). reflexivity. }
  cbn iota. unfold minute_pulses.
  destruct (Z.eqb_spec (minute now) 59) as [Hm|Hm].
  - rewrite Hm. cbn [Z.leb Z.compare Pos.compare Pos.compare_cont andb app].
    unfold bind at 1. unfold pulse_a at 1. unfold bind at 1. unfold ret at 1.
    match goal with
    | |- context [run_correction_burst_once_per_hour now ?w2] =>
        destruct (run_correction_burst_once_per_hour_run now w2 eq_refl Hm)
          as (w' & Hrun & Hl' & Hsame & Hfire)
    end.
    exists w'. split; [exact Hrun|]. split; [exact Hl'|].
    cbn in Hsame, Hfire.
    destruct (guard_is hour_key_eqb (last_correction_hour (STATE w)) (hour_key now)) eqn:Hh.
    + rewrite (Hsame eq_refl). cbn.
      destruct (last_correction_hour (STATE w)) as [k|] eqn:Hk; [|discriminate Hh].
      cbn in Hh. apply hour_key_eqb_eq in Hh. subst k.
      break_world w. cbn in *. subst. repeat split; try reflexivity; congruence.
    + destruct (Hfire eq_refl) as [Hp Hst]. rewrite Hp, Hst. cbn.
      rewrite <- app_assoc. cbn.
      assert (Ha : A_RELAY w' = false).
      { match type of Hrun with
        | run_correction_burst_once_per_hour now ?w2 = _ =>
            pose proof (run_correction_burst_keeps_A_off now w2 eq_refl) as Hoff
        end.
        rewrite Hrun in Hoff. exact Hoff. }
      break_world w. cbn in *. repeat split; try reflexivity; try congruence.
  - cbn [andb app]. rewrite app_nil_r.
    destruct ((0 <=? minute now) && (minute now <=? 49)).
    + eexists. split; [reflexivity|]. break_world w. cbn.
      rewrite <- app_assoc. repeat split; try reflexivity; congruence.
    + eexists. split; [reflexivity|]. break_world w. cbn.
      repeat split; try reflexivity; congruence.
Qed.

Lemma minute_tick_actions_blocked (now : datetime) (w : World) :
  LOCK w = true -> minute_tick_actions now w = Blocks w.
Proof.
  intros Hl. unfold minute_tick_actions, bind, with_LOCK. rewrite Hl. reflexivity.
Qed.

Lemma guard_is_same_minute (now now' : datetime) :
  minute_key now' = minute_key now ->
  guard_is minute_key_eqb (Some (minute_key now)) (minute_key now') = true.
Proof. intros ->. apply minute_key_eqb_eq. reflexivity. Qed.

(** X14. Each calendar minute is processed once: when a tick has returned,
    any further call with a reading of the same minute returns without
    changing anything, whatever the first call did. *)
Theorem minute_tick_actions_once_per_minute (now now' : datetime) (w w' : World) :
  minute_key now' = minute_key now ->
  minute_tick_actions now w = Returns tt w' ->
  minute_tick_actions now' w' = Returns tt w'.
Proof.
  intros Hk Hrun.
  destruct (LOCK w) eqn:Hl.
  { rewrite minute_tick_actions_blocked in Hrun by exact Hl. discriminate. }
  destruct (guard_is minute_key_eqb (last_minute_tick (STATE w)) (minute_key now)) eqn:Hg.
  { rewrite minute_tick_actions_duplicate in Hrun by assumption.
    injection Hrun as <-. apply minute_tick_actions_duplicate; [exact Hl|].
    rewrite Hk. exact Hg. }
  destruct (fast_set_running (STATE w)) eqn:Hr.
  { rewrite minute_tick_actions_running in Hrun by assumption.
    injection Hrun as <-. apply minute_tick_actions_duplicate; [exact Hl|].
    apply guard_is_same_minute. exact Hk. }
  destruct (Z.gtb_spec (stall_remaining_minutes (STATE w)) 0) as [Hs|Hs].
  { destruct (minute_tick_actions_stall_blocks now w Hl Hg Hr ltac:(lia))
      as (wb & Hb & _). rewrite Hb in Hrun. discriminate. }
  destruct (minute_tick_actions_normal now w Hl Hg Hr Hs)
    as (w1 & Hrun1 & Hl1 & _ & Hst & _).
  rewrite Hrun in Hrun1. injection Hrun1 as <-.
  apply minute_tick_actions_duplicate; [exact Hl1|].
  apply (f_equal last_minute_tick) in Hst. cbn in Hst. rewrite Hst.
  apply guard_is_same_minute. exact Hk.
Qed.

Lemma minute_tick_actions_once_per_minute_witness :
  minute_tick_actions (mk_datetime 2024 1 1 10 7 1)
    (mk_World (mk_State 0 false (Some (2024, 1, 1, 10, 7)) None 0 false false false StIdle)
       false false false FileMissing true
       [PulseA MINUTE_PULSE_WIDTH_SEC; PulseB MINUTE_PULSE_WIDTH_SEC]) =
  Returns tt
    (mk_World (mk_State 0 false (Some (2024, 1, 1, 10, 7)) None 0 false false false StIdle)
       false false false FileMissing true
       [PulseA MINUTE_PULSE_WIDTH_SEC; PulseB MINUTE_PULSE_WIDTH_SEC]).
Proof.
  apply (minute_tick_actions_once_per_minute (mk_datetime 2024 1 1 10 7 0)
           (mk_datetime 2024 1 1 10 7 1) World_initial).
  - reflexivity.
  - reflexivity.
Defined.

(** X15. While a session is marked running the tick drives nothing: no
    pulse, no relay, only the minute is marked as processed; so that
    minute's pulses are dropped, not postponed: once the session is over, a
    tick for the same minute still does nothing. *)
Theorem minute_tick_actions_skips_during_session (now : datetime) (w : World) :
  LOCK w = false ->
  guard_is minute_key_eqb (last_minute_tick (STATE w)) (minute_key now) = false ->
  fast_set_running (STATE w) = true ->
  exists w',
    minute_tick_actions now w = Returns tt w' /\
    pulses w' = pulses w /\ A_RELAY w' = A_RELAY w /\ B_RELAY w' = B_RELAY w /\
    STATE w' = set_last_minute_tick (Some (minute_key now)) (STATE w) /\
    forall now',
      minute_key now' = minute_key now ->
      minute_tick_actions now' (set_STATE (set_fast_set_running false (STATE w')) w') =
      Returns tt (set_STATE (set_fast_set_running false (STATE w')) w').
Proof.
  intros Hl Hg Hr. eexists.
  split; [apply minute_tick_actions_running; assumption|].
  repeat split.
  intros now' Hk. apply minute_tick_actions_duplicate; [exact Hl|].
  cbn. apply guard_is_same_minute. exact Hk.
Qed.

Lemma minute_tick_actions_skips_during_session_witness :
  exists w',
    minute_tick_actions (mk_datetime 2024 1 1 0 59 0) World_running = Returns tt w' /\
    pulses w' = pulses World_running /\
    A_RELAY w' = A_RELAY World_running /\ B_RELAY w' = B_RELAY World_running /\
    STATE w' =
      set_last_minute_tick (Some (minute_key (mk_datetime 2024 1 1 0 59 0)))
        (STATE World_running) /\
    forall now',
      minute_key now' = minute_key (mk_datetime 2024 1 1 0 59 0) ->
      minute_tick_actions now' (set_STATE (set_fast_set_running false (STATE w')) w') =
      Returns tt (set_STATE (set_fast_set_running false (STATE w')) w').
Proof.
  apply (minute_tick_actions_skips_during_session (mk_datetime 2024 1 1 0 59 0)
           World_running).
  - reflexivity.
  - reflexivity.
  - reflexivity.
Defined.

(** X16. The normal minute: with no stall pending and no session running, a
    tick for a new minute emits A; B as well exactly in minutes 0..49; and
    at minute 59 the burst, provided this hour's has not fired, after which
    the hour is recorded.  It leaves relay A off and does not touch the
    offset, the stall counter or the session flags. *)
Theorem minute_tick_actions_cadence (now : datetime) (w : World) :
  LOCK w = false ->
  guard_is minute_key_eqb (last_minute_tick (STATE w)) (minute_key now) = false ->
  fast_set_running (STATE w) = false ->
  stall_remaining_minutes (STATE w) <= 0 ->
  exists w',
    minute_tick_actions now w = Returns tt w' /\
    pulses w' =
      pulses w ++
      minute_pulses now
        (negb (guard_is hour_key_eqb (last_correction_hour (STATE w)) (hour_key now))) /\
    set_last_correction_hour (last_correction_hour (STATE w)) (STATE w') =
      set_last_minute_tick (Some (minute_key now)) (STATE w) /\
    (minute now = 59 -> last_correction_hour (STATE w') = Some (hour_key now)) /\
    (minute now <> 59 ->
     last_correction_hour (STATE w') = last_correction_hour (STATE w)) /\
    A_RELAY w' = false /\ LOCK w' = false.
Proof.
  intros Hl Hg Hr Hs.
  destruct (minute_tick_actions_normal now w Hl Hg Hr Hs)
    as (w' & Hrun & Hl' & Hp & Hst & H59 & Hn59 & Ha).
  exists w'. auto 10.
Qed.

Lemma minute_tick_actions_cadence_witness :
  exists w',
    minute_tick_actions (mk_datetime 2024 1 1 10 59 0) World_initial = Returns tt w' /\
    pulses w' =
      pulses World_initial ++
      minute_pulses (mk_datetime 2024 1 1 10 59 0)
        (negb (guard_is hour_key_eqb (last_correction_hour (STATE World_initial))
                 (hour_key (mk_datetime 2024 1 1 10 59 0)))) /\
    set_last_correction_hour (last_correction_hour (STATE World_initial)) (STATE w') =
      set_last_minute_tick (Some (minute_key (mk_datetime 2024 1 1 10 59 0)))
        (STATE World_initial) /\
    (minute (mk_datetime 2024 1 1 10 59 0) = 59 ->
     last_correction_hour (STATE w') = Some (hour_key (mk_datetime 2024 1 1 10 59 0))) /\
    (minute (mk_datetime 2024 1 1 10 59 0) <> 59 ->
     last_correction_hour (STATE w') = last_correction_hour (STATE World_initial)) /\
    A_RELAY w' = false /\ LOCK w' = false.
Proof.
  apply (minute_tick_actions_cadence (mk_datetime 2024 1 1 10 59 0) World_initial).
  - reflexivity.
  - reflexivity.
  - reflexivity.
  - cbn. lia.
Defined.

Example minute_pulses_by_minute :
  minute_pulses (mk_datetime 2024 1 1 10 49 0) true =
    [PulseA 1000; PulseB 1000] /\
  minute_pulses (mk_datetime 2024 1 1 10 50 0) true = [PulseA 1000] /\
  minute_pulses (mk_datetime 2024 1 1 10 59 0) false = [PulseA 1000] /\
  minute_pulses (mk_datetime 2024 1 1 10 59 0) true =
    PulseA 1000 :: repeat (PulseA 500) 17.
Proof. repeat split. Qed.

(** ** The pulse test *)

(** X17. A test pulse on A, B or A+B emits exactly one pulse, of the
    requested width clamped to 50..5000 ms (1000 ms when the field does not
    parse), leaves the lines off and touches neither the shared state nor
    the lock; any target other than the four known ones does nothing. *)
Theorem pulse_test_single_clamped_pulse (w_form : option Z) (now : datetime) (w : World) :
  exists width,
    width = Z.max 50 (Z.min 5000 (match w_form with Some x => x | None => 1000 end)) /\
    50 <= width <= 5000 /\
    (forall x, w_form = Some x -> 50 <= x <= 5000 -> width = x) /\
    pulse_test "A" w_form now w =
      Returns tt (emit (PulseA width) (set_relays false (B_RELAY w) w)) /\
    pulse_test "B" w_form now w =
      Returns tt (emit (PulseB width) (set_relays (A_RELAY w) false w)) /\
    pulse_test "AB" w_form now w =
      Returns tt (emit (PulseAB width) (set_relays false false w)) /\
    (forall which,
        which <> "A"%string -> which <> "B"%string -> which <> "AB"%string ->
        which <> "CORR"%string ->
        pulse_test which w_form now w = Returns tt w).
Proof.
  eexists. split; [reflexivity|].
  split; [lia|]. split; [intros x -> Hx; lia|].
  split; [reflexivity|]. split; [reflexivity|]. split; [reflexivity|].
  intros which HA HB HAB HC. unfold pulse_test.
  apply String.eqb_neq in HA, HB, HAB, HC.
  rewrite HA, HB, HAB, HC. reflexivity.
Qed.

(** ** Sessions that nobody disturbs *)

Ltac eval_py :=
  cbn -[Z.modulo Z.add Z.sub Z.gtb Z.eqb Z.geb Z.leb Z.opp Z.mul Z.of_nat Z.div
        to_12h_minutes FAST_SET_MAX_PULSES FAST_SET_MAX_SECONDS
        FAST_SET_PULSE_WIDTH_SEC].

Ltac unfold_session :=
  unfold compute_fast_or_stall_plan, current_estimated_dial_minutes,
    update_offset_after_stall_or_advance, persist_state, json_dump, pulse_ab;
  unfold_py.

Lemma opp_mod_720 (x : Z) : (- (x mod 720)) mod 720 = (- x) mod 720.
Proof.
  replace (- (x mod 720)) with (0 - x mod 720) by lia.
  rewrite Zminus_mod_idemp_r. f_equal.
Qed.

Lemma geb_false_of_lt (x y : Z) : x < y -> (x >=? y) = false.
Proof. intros H. destruct (Z.geb_spec x y); [lia|reflexivity]. Qed.

Lemma eqb_false_of_lt (x : Z) : 0 < x -> (x =? 0) = false.
Proof. intros H. apply Z.eqb_neq. lia. Qed.

(** One round of the loop when the dial is [r > 0] minutes behind. *)
Lemma fast_set_iteration_advances (t : Tick) (k : nat) (r : Z) (w : World) :
  LOCK w = false ->
  has_offset (STATE w) = true ->
  fast_set_cancel_requested (STATE w) = false ->
  (- offset_minutes (STATE w)) mod 720 = r ->
  0 < r <= 360 ->
  Z.of_nat k < FAST_SET_MAX_PULSES ->
  elapsed t <= FAST_SET_MAX_SECONDS ->
  exists w',
    fast_set_iteration t (Z.of_nat k) w = Returns Continue w' /\
    LOCK w' = false /\
    has_offset (STATE w') = true /\
    fast_set_cancel_requested (STATE w') = false /\
    (- offset_minutes (STATE w')) mod 720 = r - 1 /\
    pulses w' = pulses w ++ [PulseAB FAST_SET_PULSE_WIDTH_SEC] /\
    stall_remaining_minutes (STATE w') = stall_remaining_minutes (STATE w) /\
    fast_set_requested (STATE w') = fast_set_requested (STATE w) /\
    fast_set_running (STATE w') = fast_set_running (STATE w).
Proof.
  intros Hl Hh Hc Hr Hrange Hk He.
  unfold fast_set_iteration.
  rewrite (gtb_false_of_le _ _ He), (geb_false_of_lt _ _ Hk).
  unfold_session.
  destruct w as [s lk ra rb f dw ps]. destruct s as [off ho lmt lch srm rq rn cn st].
  cbn [LOCK STATE has_offset fast_set_cancel_requested offset_minutes] in *. subst.
  eval_py.
  rewrite delta_forward_of_offset.
  rewrite (eqb_false_of_lt _ (proj1 Hrange)), (gtb_false_of_le _ _ (proj2 Hrange)).
  eval_py.
  rewrite (eqb_false_of_lt _ (proj1 Hrange)).
  eval_py.
  assert (Hnext : (- ((off - 0 + 1) mod 720)) mod 720 = (- off) mod 720 - 1).
  { rewrite opp_mod_720.
    replace (- (off - 0 + 1)) with (- off - 1) by lia.
    rewrite <- Zminus_mod_idemp_l. apply Z.mod_small. lia. }
  destruct dw; destruct ((Z.of_nat k + 1) mod 10 =? 0); eval_py;
    eexists; (split; [reflexivity|]); eval_py; repeat split; exact Hnext.
Qed.

(** The round that finds the dial aligned. *)
Lemma fast_set_iteration_completes (t : Tick) (k : nat) (w : World) :
  LOCK w = false ->
  has_offset (STATE w) = true ->
  fast_set_cancel_requested (STATE w) = false ->
  (- offset_minutes (STATE w)) mod 720 = 0 ->
  elapsed t <= FAST_SET_MAX_SECONDS ->
  fast_set_iteration t (Z.of_nat k) w =
  Returns Return (set_STATE (set_fast_set_status (StComplete (Z.of_nat k)) (STATE w)) w).
Proof.
  intros Hl Hh Hc Hr He.
  unfold fast_set_iteration.
  rewrite (gtb_false_of_le _ _ He).
  unfold_session.
  destruct w as [s lk ra rb f dw ps]. destruct s as [off ho lmt lch srm rq rn cn st].
  cbn [LOCK STATE has_offset fast_set_cancel_requested offset_minutes] in *. subst.
  eval_py.
  rewrite delta_forward_of_offset, Hr.
  reflexivity.
Qed.

Lemma fast_set_loop_undisturbed (sched : nat -> Tick) (n : nat) :
  (forall k, requests (sched k) = [] /\ elapsed (sched k) <= FAST_SET_MAX_SECONDS) ->
  forall (fuel k : nat) (w : World),
    LOCK w = false ->
    has_offset (STATE w) = true ->
    fast_set_cancel_requested (STATE w) = false ->
    (- offset_minutes (STATE w)) mod 720 = Z.of_nat n ->
    (k + n <= 360)%nat ->
    (n < fuel)%nat ->
    exists w',
      fast_set_loop fuel sched k w = Some (Returns tt w') /\
      LOCK w' = false /\
      has_offset (STATE w') = true /\
      (- offset_minutes (STATE w')) mod 720 = 0 /\
      pulses w' = pulses w ++ repeat (PulseAB FAST_SET_PULSE_WIDTH_SEC) n /\
      fast_set_status (STATE w') = StComplete (Z.of_nat (k + n)) /\
      fast_set_cancel_requested (STATE w') = false /\
      stall_remaining_minutes (STATE w') = stall_remaining_minutes (STATE w) /\
      fast_set_requested (STATE w') = fast_set_requested (STATE w) /\
      fast_set_running (STATE w') = fast_set_running (STATE w).
Proof.
  intros Hquiet. induction n as [|n IH]; intros fuel k w Hl Hh Hc Hr Hkn Hfuel;
    (destruct fuel as [|fuel]; [lia|]); cbn [fast_set_loop];
    destruct (Hquiet k) as [Hreq He]; rewrite Hreq; cbn [serve_all];
    unfold bind at 1; unfold ret at 1.
  - rewrite (fast_set_iteration_completes (sched k) k w Hl Hh Hc Hr He).
    eexists. split; [reflexivity|].
    rewrite Nat.add_0_r, app_nil_r. cbn. auto 10.
  - destruct (fast_set_iteration_advances (sched k) k (Z.of_nat (S n)) w
                Hl Hh Hc Hr ltac:(lia) ltac:(unfold FAST_SET_MAX_PULSES; lia) He)
      as (w1 & Hit & Hl1 & Hh1 & Hc1 & Hr1 & Hp1 & Hs1 & Hq1 & Hn1).
    rewrite Hit.
    destruct (IH fuel (S k) w1 Hl1 Hh1 Hc1 ltac:(lia) ltac:(lia) ltac:(lia))
      as (w' & Hloop & Hl' & Hh' & Hr' & Hp' & Hst' & Hc' & Hs' & Hq' & Hn').
    exists w'. split; [exact Hloop|].
    rewrite Hp', Hp1, <- app_assoc, Hst'. cbn [app repeat].
    replace (S k + n)%nat with (k + S n)%nat by lia.
    repeat split; try assumption; congruence.
Qed.

Lemma fast_set_prologue_behind (now : datetime) (w : World) :
  LOCK w = false ->
  has_offset (STATE w) = true ->
  0 < (- offset_minutes (STATE w)) mod 720 <= 360 ->
  fast_set_prologue now w =
  Returns Continue (set_STATE (set_fast_set_status StRunning (STATE w)) w).
Proof.
  intros Hl Hh Hrange. unfold fast_set_prologue. unfold_session.
  destruct w as [s lk ra rb f dw ps]. destruct s as [off ho lmt lch srm rq rn cn st].
  cbn [LOCK STATE has_offset offset_minutes] in *. subst.
  eval_py. rewrite delta_forward_of_offset.
  rewrite (eqb_false_of_lt _ (proj1 Hrange)), (gtb_false_of_le _ _ (proj2 Hrange)).
  eval_py. rewrite (eqb_false_of_lt _ (proj1 Hrange)). reflexivity.
Qed.

Lemma fast_set_prologue_ahead (now : datetime) (w : World) :
  LOCK w = false ->
  has_offset (STATE w) = true ->
  360 < (- offset_minutes (STATE w)) mod 720 ->
  fast_set_prologue now w =
  Returns Return
    (set_STATE
       (set_fast_set_status (StWillStall (720 - (- offset_minutes (STATE w)) mod 720))
          (set_stall_remaining_minutes (720 - (- offset_minutes (STATE w)) mod 720)
             (STATE w))) w).
Proof.
  intros Hl Hh Hrange. unfold fast_set_prologue. unfold_session.
  pose proof (Z.mod_pos_bound (- offset_minutes (STATE w)) 720 ltac:(lia)) as Hb.
  destruct w as [s lk ra rb f dw ps]. destruct s as [off ho lmt lch srm rq rn cn st].
  cbn [LOCK STATE has_offset offset_minutes] in *. subst.
  eval_py. rewrite delta_forward_of_offset.
  rewrite (eqb_false_of_lt ((- off) mod 720)) by lia.
  replace ((- off) mod 720 >? 360) with true by (symmetry; apply Z.gtb_gt; lia).
  eval_py.
  replace (720 - (- off) mod 720 >? 0) with true by (symmetry; apply Z.gtb_gt; lia).
  reflexivity.
Qed.

Lemma plan_behind_inv (now : datetime) (adv : Z) (w : World) :
  LOCK w = false ->
  compute_fast_or_stall_plan now w = Returns (0, adv) w ->
  0 < adv ->
  has_offset (STATE w) = true /\
  (- offset_minutes (STATE w)) mod 720 = adv /\ adv <= 360.
Proof.
  intros Hl Hplan Hadv.
  destruct (has_offset (STATE w)) eqn:Hh.
  - split; [reflexivity|].
    rewrite (compute_fast_or_stall_plan_by_offset now w Hl Hh) in Hplan.
    apply Returns_value_eq in Hplan. cbv zeta in Hplan. revert Hplan.
    destruct (Z.eqb_spec ((- offset_minutes (STATE w)) mod 720) 0) as [E|E];
      [|destruct (Z.gtb_spec ((- offset_minutes (STATE w)) mod 720) 360)];
      intros Hplan; apply pair_equal_spec in Hplan; lia.
  - rewrite (compute_fast_or_stall_plan_without_offset now w Hl Hh) in Hplan.
    apply Returns_value_eq, pair_equal_spec in Hplan. lia.
Qed.

Lemma plan_ahead_inv (now : datetime) (stall : Z) (w : World) :
  LOCK w = false ->
  compute_fast_or_stall_plan now w = Returns (stall, 0) w ->
  0 < stall ->
  has_offset (STATE w) = true /\
  360 < (- offset_minutes (STATE w)) mod 720 /\
  stall = 720 - (- offset_minutes (STATE w)) mod 720.
Proof.
  intros Hl Hplan Hst.
  destruct (has_offset (STATE w)) eqn:Hh.
  - split; [reflexivity|].
    rewrite (compute_fast_or_stall_plan_by_offset now w Hl Hh) in Hplan.
    apply Returns_value_eq in Hplan. cbv zeta in Hplan. revert Hplan.
    destruct (Z.eqb_spec ((- offset_minutes (STATE w)) mod 720) 0) as [E|E];
      [|destruct (Z.gtb_spec ((- offset_minutes (STATE w)) mod 720) 360)];
      intros Hplan; apply pair_equal_spec in Hplan; lia.
  - rewrite (compute_fast_or_stall_plan_without_offset now w Hl Hh) in Hplan.
    apply Returns_value_eq, pair_equal_spec in Hplan. lia.
Qed.

(** X18. A session nobody disturbs (no web request served, no timeout):
    if the planner says the dial is [adv > 0] minutes behind when the
    request is claimed, the session emits exactly [adv] A+B pulses, reports
    "complete" with that count, leaves the planner at (0, 0) and the
    session flags cleared; whatever the clocks read meanwhile. *)
Theorem fast_set_session_undisturbed
    (fuel : nat) (sched : Schedule) (adv : Z) (w : World) :
  LOCK w = false ->
  fast_set_requested (STATE w) = true ->
  fast_set_running (STATE w) = false ->
  compute_fast_or_stall_plan (plan_now sched) w = Returns (0, adv) w ->
  0 < adv ->
  undisturbed sched ->
  (Z.to_nat adv < fuel)%nat ->
  exists w',
    maybe_handle_fast_set fuel sched w = Some (Returns tt w') /\
    pulses w' = pulses w ++ repeat (PulseAB FAST_SET_PULSE_WIDTH_SEC) (Z.to_nat adv) /\
    fast_set_status (STATE w') = StComplete adv /\
    (forall now, compute_fast_or_stall_plan now w' = Returns (0, 0) w') /\
    fast_set_running (STATE w') = false /\
    fast_set_requested (STATE w') = false /\
    fast_set_cancel_requested (STATE w') = false /\
    stall_remaining_minutes (STATE w') = stall_remaining_minutes (STATE w) /\
    A_RELAY w' = false /\ B_RELAY w' = false /\ LOCK w' = false.
Proof.
  intros Hl Hreq Hrun Hplan Hadv Hquiet Hfuel.
  destruct (plan_behind_inv _ _ _ Hl Hplan Hadv) as (Hh & Hr & Hle).
  unfold maybe_handle_fast_set.
  rewrite (fast_set_claim_run w Hl), Hreq, Hrun. cbn [negb orb].
  unfold fast_set_try.
  rewrite fast_set_prologue_behind by (cbn; first [assumption | lia]).
  match goal with
  | |- context [fast_set_loop fuel (ticks sched) 0 ?w2] =>
      destruct (fast_set_loop_undisturbed (ticks sched) (Z.to_nat adv) Hquiet fuel 0%nat w2)
        as (w3 & Hloop & Hl3 & Hh3 & Hr3 & Hp3 & Hst3 & Hc3 & Hs3 & Hq3 & Hn3);
      [ exact Hl | exact Hh | reflexivity
      | cbn; rewrite Z2Nat.id by lia; exact Hr | lia | exact Hfuel | ]
  end.
  rewrite Hloop. cbn [except_with finally_with].
  rewrite (fast_set_finally_run w3 Hl3).
  eexists. split; [reflexivity|].
  cbn in Hp3, Hst3, Hs3, Hq3.
  split; [exact Hp3|].
  split; [cbn; rewrite Hst3; cbn [Nat.add]; rewrite Z2Nat.id by lia; reflexivity|].
  split.
  { intros now. rewrite compute_fast_or_stall_plan_by_offset by (cbn; assumption).
    cbn [STATE set_relays set_STATE offset_minutes set_fast_set_cancel_requested
         set_fast_set_running]. rewrite Hr3. reflexivity. }
  cbn. repeat split; assumption.
Qed.

(** Scenario B: 11:55 declared at 00:00, five pulses. *)
Lemma fast_set_session_undisturbed_witness :
  exists w',
    maybe_handle_fast_set 6 (quiet_schedule midnight) (World_requested 5) =
      Some (Returns tt w') /\
    pulses w' =
      pulses (World_requested 5) ++
      repeat (PulseAB FAST_SET_PULSE_WIDTH_SEC) (Z.to_nat 5) /\
    fast_set_status (STATE w') = StComplete 5 /\
    (forall now, compute_fast_or_stall_plan now w' = Returns (0, 0) w') /\
    fast_set_running (STATE w') = false /\
    fast_set_requested (STATE w') = false /\
    fast_set_cancel_requested (STATE w') = false /\
    stall_remaining_minutes (STATE w') =
      stall_remaining_minutes (STATE (World_requested 5)) /\
    A_RELAY w' = false /\ B_RELAY w' = false /\ LOCK w' = false.
Proof.
  apply (fast_set_session_undisturbed 6 (quiet_schedule midnight) 5 (World_requested 5)).
  - reflexivity.
  - reflexivity.
  - reflexivity.
  - reflexivity.
  - lia.
  - intros k. split; [reflexivity|]. vm_compute. discriminate.
  - vm_compute. lia.
Defined.

(** X19. When the planner says the dial is [stall > 0] minutes ahead, a
    claimed session emits no pulse: it stores [stall] in
    [stall_remaining_minutes], reports that it will stall, and ends, on any
    schedule.  The very next tick for a new minute then takes the stall
    branch and blocks on the lock. *)
Theorem fast_set_session_hands_over
    (fuel : nat) (sched : Schedule) (stall : Z) (w : World) :
  LOCK w = false ->
  fast_set_requested (STATE w) = true ->
  fast_set_running (STATE w) = false ->
  compute_fast_or_stall_plan (plan_now sched) w = Returns (stall, 0) w ->
  0 < stall ->
  exists w',
    maybe_handle_fast_set fuel sched w = Some (Returns tt w') /\
    pulses w' = pulses w /\
    stall_remaining_minutes (STATE w') = stall /\
    fast_set_status (STATE w') = StWillStall stall /\
    offset_minutes (STATE w') = offset_minutes (STATE w) /\
    fast_set_running (STATE w') = false /\
    A_RELAY w' = false /\ B_RELAY w' = false /\ LOCK w' = false /\
    forall now,
      guard_is minute_key_eqb (last_minute_tick (STATE w')) (minute_key now) = false ->
      exists w_blocked,
        minute_tick_actions now w' = Blocks w_blocked /\ LOCK w_blocked = true.
Proof.
  intros Hl Hreq Hrun Hplan Hst.
  destruct (plan_ahead_inv _ _ _ Hl Hplan Hst) as (Hh & Hr & Heq).
  unfold maybe_handle_fast_set.
  rewrite (fast_set_claim_run w Hl), Hreq, Hrun. cbn [negb orb].
  unfold fast_set_try.
  rewrite fast_set_prologue_ahead by (cbn; assumption).
  cbn [except_with finally_with].
  rewrite fast_set_finally_run by exact Hl.
  eexists. split; [reflexivity|].
  cbn [STATE set_STATE set_relays offset_minutes set_fast_set_status
       set_fast_set_cancel_requested set_fast_set_running set_fast_set_requested
       set_stall_remaining_minutes].
  rewrite <- Heq.
  split; [reflexivity|]. split; [reflexivity|]. split; [reflexivity|].
  split; [reflexivity|]. split; [reflexivity|]. split; [reflexivity|].
  split; [reflexivity|]. split; [exact Hl|].
  intros now Hg.
  match goal with
  | |- context [minute_tick_actions now ?w1] =>
      destruct (minute_tick_actions_stall_blocks now w1 Hl Hg eq_refl) as (wb & Hb & Hlb & _)
  end.
  - cbn [STATE set_relays set_STATE stall_remaining_minutes
         set_fast_set_cancel_requested set_fast_set_running set_fast_set_status
         set_stall_remaining_minutes]. lia.
  - exists wb. split; assumption.
Qed.

(** Scenario C: 00:05 declared at 00:00. *)
Lemma fast_set_session_hands_over_witness :
  exists w',
    maybe_handle_fast_set 1 (quiet_schedule midnight) (World_requested 715) =
      Some (Returns tt w') /\
    pulses w' = pulses (World_requested 715) /\
    stall_remaining_minutes (STATE w') = 5 /\
    fast_set_status (STATE w') = StWillStall 5 /\
    offset_minutes (STATE w') = offset_minutes (STATE (World_requested 715)) /\
    fast_set_running (STATE w') = false /\
    A_RELAY w' = false /\ B_RELAY w' = false /\ LOCK w' = false /\
    forall now,
      guard_is minute_key_eqb (last_minute_tick (STATE w')) (minute_key now) = false ->
      exists w_blocked,
        minute_tick_actions now w' = Blocks w_blocked /\ LOCK w_blocked = true.
Proof.
  apply (fast_set_session_hands_over 1 (quiet_schedule midnight) 5 (World_requested 715)).
  - reflexivity.
  - reflexivity.
  - reflexivity.
  - reflexivity.
  - lia.
Defined.

(** ** Sessions on any schedule *)

Section Triples.
Context {A B : Type}.

Lemma hoare_bind (P : World -> Prop) (m : M A) (f : A -> M B)
    (R : A -> World -> Prop) (Q : B -> World -> Prop) (E : World -> Prop) :
  hoare P m R E -> (forall a, hoare (R a) (f a) Q E) -> hoare P (bind m f) Q E.
Proof.
  intros Hm Hf w Hw. unfold bind. specialize (Hm w Hw).
  destruct (m w) as [a w1|e w1|w1]; try exact Hm.
  apply Hf. exact Hm.
Qed.

Lemma hoare_ret (P : World -> Prop) (a : A) (Q : A -> World -> Prop) (E : World -> Prop) :
  (forall w, P w -> Q a w) -> hoare P (ret a) Q E.
Proof. intros H w Hw. apply H. exact Hw. Qed.

Lemma hoare_raise (P : World -> Prop) (e : Exn) (Q : A -> World -> Prop) (E : World -> Prop) :
  (forall w, P w -> E w) -> hoare P (@raise A e) Q E.
Proof. intros H w Hw. apply H. exact Hw. Qed.

Lemma hoare_of_preserves (P : World -> Prop) (m : M A) (E : World -> Prop) :
  preserves P m -> (forall w, P w -> E w) -> hoare P m (fun _ => P) E.
Proof.
  intros Hm HE w Hw. specialize (Hm w Hw).
  destruct (m w); cbn in Hm; auto.
Qed.
End Triples.

Ltac pulses_leaf :=
  first [ intros ? ?; reflexivity | intros; assumption ].

Lemma fast_set_iteration_pulses (t : Tick) (n : Z) (L : list HwEvent) :
  hoare (pulses_are L) (fast_set_iteration t n)
    (fun c w' =>
       match c with
       | Continue =>
           pulses_are (L ++ [PulseAB FAST_SET_PULSE_WIDTH_SEC]) w' /\
           n < FAST_SET_MAX_PULSES
       | Return => pulses_are L w'
       end)
    (fun w' =>
       pulses_are L w' \/
       (pulses_are (L ++ [PulseAB FAST_SET_PULSE_WIDTH_SEC]) w' /\
        n < FAST_SET_MAX_PULSES)).
Proof.
  unfold fast_set_iteration.
  apply hoare_bind with (R := fun _ => pulses_are L).
  { apply hoare_of_preserves; [step_preserves|auto]. }
  intros _. apply hoare_bind with (R := fun _ => pulses_are L).
  { apply hoare_of_preserves; [step_preserves; pulses_leaf|auto]. }
  intros [|]; [apply hoare_ret; auto|].
  apply hoare_bind with (R := fun _ => pulses_are L).
  { apply hoare_of_preserves; [step_preserves; pulses_leaf|auto]. }
  intros [stall adv]. destruct (stall >? 0).
  { apply hoare_bind with (R := fun _ => pulses_are L).
    - apply hoare_of_preserves; [step_preserves; pulses_leaf|auto].
    - intros _. apply hoare_ret. auto. }
  destruct (adv =? 0).
  { apply hoare_bind with (R := fun _ => pulses_are L).
    - apply hoare_of_preserves; [step_preserves; pulses_leaf|auto].
    - intros _. apply hoare_ret. auto. }
  destruct (Z.geb_spec n FAST_SET_MAX_PULSES) as [Hge|Hlt].
  { apply hoare_raise. auto. }
  apply hoare_bind
    with (R := fun _ => pulses_are (L ++ [PulseAB FAST_SET_PULSE_WIDTH_SEC])).
  { intros w Hw. unfold pulse_ab, pulses_are in *. cbn. rewrite Hw. reflexivity. }
  intros _.
  apply hoare_bind
    with (R := fun _ => pulses_are (L ++ [PulseAB FAST_SET_PULSE_WIDTH_SEC])).
  { apply hoare_of_preserves; [step_preserves; pulses_leaf|auto]. }
  intros _. cbv zeta.
  apply hoare_bind
    with (R := fun _ => pulses_are (L ++ [PulseAB FAST_SET_PULSE_WIDTH_SEC])).
  { apply hoare_of_preserves; [step_preserves; pulses_leaf|auto]. }
  intros _. apply hoare_ret. auto.
Qed.

Lemma serve_all_pulses (L : list HwEvent) (rs : list WebReq) :
  preserves (pulses_are L) (serve_all rs).
Proof.
  apply serve_all_preserves. intros r. step_preserves; pulses_leaf.
Qed.

Lemma fast_set_loop_pulses (sched : nat -> Tick) (fuel : nat) :
  forall (k : nat) (w : World) (o : Outcome unit),
    (k <= 400)%nat ->
    fast_set_loop fuel sched k w = Some o ->
    exists n,
      (k + n <= 400)%nat /\
      pulses (final_world o) =
        pulses w ++ repeat (PulseAB FAST_SET_PULSE_WIDTH_SEC) n.
Proof.
  induction fuel as [|fuel IH]; intros k w o Hk Hrun; cbn [fast_set_loop] in Hrun;
    [discriminate Hrun|].
  assert (Hstep : hoare (pulses_are (pulses w))
            (serve_all (requests (sched k)) ;;
             fast_set_iteration (sched k) (Z.of_nat k))
            (fun c w' =>
               match c with
               | Continue =>
                   pulses_are (pulses w ++ [PulseAB FAST_SET_PULSE_WIDTH_SEC]) w' /\
                   Z.of_nat k < FAST_SET_MAX_PULSES
               | Return => pulses_are (pulses w) w'
               end)
            (fun w' =>
               pulses_are (pulses w) w' \/
               (pulses_are (pulses w ++ [PulseAB FAST_SET_PULSE_WIDTH_SEC]) w' /\
                Z.of_nat k < FAST_SET_MAX_PULSES))).
  { apply hoare_bind with (R := fun _ => pulses_are (pulses w)).
    - apply hoare_of_preserves; [apply serve_all_pulses|auto].
    - intros _. apply fast_set_iteration_pulses. }
  specialize (Hstep w eq_refl). unfold pulses_are, FAST_SET_MAX_PULSES in Hstep.
  destruct ((serve_all (requests (sched k)) ;;
             fast_set_iteration (sched k) (Z.of_nat k)) w) as [[|] w'|e w'|w'].
  - destruct Hstep as [Hp Hlt].
    destruct (IH (S k) w' o ltac:(lia) Hrun) as (n & Hn & Hpn).
    exists (S n). split; [lia|].
    rewrite Hpn, Hp, <- app_assoc. reflexivity.
  - injection Hrun as <-. exists 0%nat. split; [lia|].
    cbn. rewrite app_nil_r. exact Hstep.
  - injection Hrun as <-. destruct Hstep as [Hp|[Hp Hlt]].
    + exists 0%nat. split; [lia|]. cbn. rewrite app_nil_r. exact Hp.
    + exists 1%nat. split; [lia|]. exact Hp.
  - injection Hrun as <-. destruct Hstep as [Hp|[Hp Hlt]].
    + exists 0%nat. split; [lia|]. cbn. rewrite app_nil_r. exact Hp.
    + exists 1%nat. split; [lia|]. exact Hp.
Qed.

Lemma maybe_handle_fast_set_pulses (fuel : nat) (sched : Schedule)
    (w : World) (o : Outcome unit) :
  maybe_handle_fast_set fuel sched w = Some o ->
  exists n,
    (n <= 400)%nat /\
    pulses (final_world o) = pulses w ++ repeat (PulseAB FAST_SET_PULSE_WIDTH_SEC) n.
Proof.
  intros Hrun. unfold maybe_handle_fast_set in Hrun.
  assert (Hclaim : preserves (pulses_are (pulses w)) fast_set_claim)
    by (unfold fast_set_claim; step_preserves; pulses_leaf).
  specialize (Hclaim w eq_refl). unfold pulses_are in Hclaim.
  assert (Hnone : forall o' : Outcome unit,
                    final_world o' = final_world (fast_set_claim w) ->
                             exists n, (n <= 400)%nat /\
                               pulses (final_world o') =
                               pulses w ++ repeat (PulseAB FAST_SET_PULSE_WIDTH_SEC) n).
  { intros o' ->. exists 0%nat. split; [lia|]. cbn. rewrite app_nil_r. exact Hclaim. }
  destruct (fast_set_claim w) as [[|] w1|e w1|w1];
    try (injection Hrun as <-; apply Hnone; reflexivity).
  clear Hnone. cbn [final_world] in Hclaim.
  destruct (fast_set_try fuel sched w1) as [o1|] eqn:Htry; [|discriminate Hrun].
  injection Hrun as <-.
  assert (H1 : exists n, (n <= 400)%nat /\
                 pulses (final_world o1) =
                 pulses w ++ repeat (PulseAB FAST_SET_PULSE_WIDTH_SEC) n).
  { unfold fast_set_try in Htry.
    assert (Hpro : preserves (pulses_are (pulses w)) (fast_set_prologue (plan_now sched)))
      by (unfold fast_set_prologue; step_preserves; pulses_leaf).
    specialize (Hpro w1 Hclaim). unfold pulses_are in Hpro.
    destruct (fast_set_prologue (plan_now sched) w1) as [[|] w2|e w2|w2];
      cbn [final_world] in Hpro;
      try (injection Htry as <-; exists 0%nat; split; [lia|]; cbn;
           rewrite app_nil_r; exact Hpro).
    destruct (fast_set_loop_pulses _ _ _ _ _ (Nat.le_0_l 400) Htry) as (n & Hn & Hp).
    exists n. split; [lia|]. rewrite Hp, Hpro. reflexivity. }
  destruct H1 as (n & Hn & Hp). exists n. split; [exact Hn|].
  rewrite <- Hp.
  assert (Hexc : forall e, preserves (pulses_are (pulses (final_world o1))) (fast_set_except e))
    by (intros e; unfold fast_set_except; step_preserves; pulses_leaf).
  assert (Hfin : preserves (pulses_are (pulses (final_world o1))) fast_set_finally)
    by (unfold fast_set_finally; step_preserves; pulses_leaf).
  assert (H2 : pulses (final_world (except_with fast_set_except o1)) =
               pulses (final_world o1)).
  { destruct o1 as [a w2|e w2|w2]; cbn [except_with final_world]; try reflexivity.
    apply (Hexc e w2). reflexivity. }
  rewrite <- H2. revert H2.
  destruct (except_with fast_set_except o1) as [a w3|e w3|w3];
    cbn [finally_with final_world]; intros H2.
  - specialize (Hfin w3 H2). destruct (fast_set_finally w3); cbn in Hfin;
      unfold pulses_are in Hfin; cbn [final_world]; congruence.
  - specialize (Hfin w3 H2). destruct (fast_set_finally w3); cbn in Hfin;
      unfold pulses_are in Hfin; cbn [final_world]; congruence.
  - reflexivity.
Qed.

Lemma maybe_handle_fast_set_total (fuel : nat) (sched : Schedule) (w : World) :
  (401 <= fuel)%nat ->
  exists o, maybe_handle_fast_set fuel sched w = Some o.
Proof.
  intros Hfuel. unfold maybe_handle_fast_set.
  destruct (LOCK w) eqn:Hl.
  - unfold fast_set_claim, with_LOCK. rewrite Hl. eexists. reflexivity.
  - rewrite (fast_set_claim_run w Hl).
    destruct (negb (fast_set_requested (STATE w)) || fast_set_running (STATE w));
      [eexists; reflexivity|].
    match goal with
    | |- context [fast_set_try fuel sched ?w1] =>
        destruct (fast_set_try_ends fuel sched w1 Hl Hfuel) as (o1 & Ho1 & _)
    end.
    rewrite Ho1. eexists. reflexivity.
Qed.

(** X20. The pulse cap holds on every schedule: whatever the clocks read
    and whatever requests arrive, one call of [maybe_handle_fast_set] ends
    and adds at most 400 pulses, all of them A+B pulses of the fast-set
    width; it emits no other kind of pulse. *)
Theorem fast_set_session_pulse_cap (fuel : nat) (sched : Schedule) (w : World) :
  (401 <= fuel)%nat ->
  exists o n,
    maybe_handle_fast_set fuel sched w = Some o /\
    (n <= 400)%nat /\
    pulses (final_world o) = pulses w ++ repeat (PulseAB FAST_SET_PULSE_WIDTH_SEC) n.
Proof.
  intros Hfuel.
  destruct (maybe_handle_fast_set_total fuel sched w Hfuel) as (o & Ho).
  destruct (maybe_handle_fast_set_pulses fuel sched w o Ho) as (n & Hn & Hp).
  exists o, n. auto.
Qed.

Lemma fast_set_session_pulse_cap_witness :
  exists o n,
    maybe_handle_fast_set 401
      (mk_Schedule midnight
         (fun k => mk_Tick (if Nat.eqb k 300 then [ReqSetDial 6 0 midnight] else [])
                     0 midnight))
      (World_requested 360) = Some o /\
    (n <= 400)%nat /\
    pulses (final_world o) =
      pulses (World_requested 360) ++ repeat (PulseAB FAST_SET_PULSE_WIDTH_SEC) n.
Proof.
  apply (fast_set_session_pulse_cap 401).
  lia.
Defined.

(** ** Stopping a session *)

Lemma serve_all_returns (rs : list WebReq) : forall (w : World),
  LOCK w = false ->
  exists w1,
    serve_all rs w = Returns tt w1 /\ LOCK w1 = false /\ pulses w1 = pulses w.
Proof.
  induction rs as [|r rs IH]; intros w Hl; cbn [serve_all].
  - exists w. auto.
  - assert (Hr : exists w0, serve r w = Returns tt w0 /\ LOCK w0 = false /\
                            pulses w0 = pulses w).
    { destruct r as [| |hh mm now]; cbn [serve].
      - rewrite (fast_set_run w Hl). eexists. split; [reflexivity|]. auto.
      - rewrite (stop_correction_run w Hl). eexists. split; [reflexivity|]. auto.
      - destruct (set_dial_reading_run hh mm now w Hl) as (w0 & H0 & Hl0 & _ & _ & Hp & _).
        exists w0. auto. }
    destruct Hr as (w0 & Hr & Hl0 & Hp0).
    destruct (IH w0 Hl0) as (w1 & H1 & Hl1 & Hp1).
    exists w1. erewrite bind_Returns by exact Hr.
    repeat split; try assumption. congruence.
Qed.

Lemma serve_all_app (rs rs' : list WebReq) (w : World) :
  serve_all (rs ++ rs') w = (serve_all rs ;; serve_all rs') w.
Proof.
  revert w. induction rs as [|r rs IH]; intros w; cbn [serve_all app].
  - reflexivity.
  - unfold bind. destruct (serve r w) as [[] w1|e w1|w1]; try reflexivity.
    rewrite IH. reflexivity.
Qed.

Lemma fast_set_iteration_cancelled (t : Tick) (n : Z) (w : World) :
  LOCK w = false ->
  fast_set_cancel_requested (STATE w) = true ->
  fast_set_iteration t n w =
  if elapsed t >? FAST_SET_MAX_SECONDS
  then Raises (RuntimeError MsgTimeout) w
  else Returns Return
         (set_relays false false
            (set_STATE (set_fast_set_status StCancelled (STATE w)) w)).
Proof.
  intros Hl Hc. unfold fast_set_iteration.
  destruct (elapsed t >? FAST_SET_MAX_SECONDS); [reflexivity|].
  unfold_py. cbn. rewrite Hl. cbn. rewrite Hc.
  break_world w. reflexivity.
Qed.

(** X21. Cancellation takes at most one round: in the round that follows a
    served stop request no pulse is emitted and the loop does not go
    round again; both relays are off; and unless the round hits the
    timeout instead, it ends the session as "cancelled". *)
Theorem fast_set_iteration_after_stop
    (rs : list WebReq) (t : Tick) (n : Z) (w : World) :
  LOCK w = false ->
  pulses (final_world
            ((serve_all (rs ++ [ReqStop]) ;; fast_set_iteration t n) w)) = pulses w /\
  A_RELAY (final_world
             ((serve_all (rs ++ [ReqStop]) ;; fast_set_iteration t n) w)) = false /\
  B_RELAY (final_world
             ((serve_all (rs ++ [ReqStop]) ;; fast_set_iteration t n) w)) = false /\
  (forall w', (serve_all (rs ++ [ReqStop]) ;; fast_set_iteration t n) w <>
              Returns Continue w') /\
  (elapsed t <= FAST_SET_MAX_SECONDS ->
   exists w',
     (serve_all (rs ++ [ReqStop]) ;; fast_set_iteration t n) w = Returns Return w' /\
     fast_set_status (STATE w') = StCancelled).
Proof.
  intros Hl.
  destruct (serve_all_returns rs w Hl) as (w1 & H1 & Hl1 & Hp1).
  assert (Hserve : serve_all (rs ++ [ReqStop]) w =
                   Returns tt
                     (set_relays false false
                        (set_STATE
                           (set_fast_set_status StStopRequested
                              (set_fast_set_requested false
                                 (set_fast_set_cancel_requested true (STATE w1)))) w1))).
  { rewrite serve_all_app. erewrite bind_Returns by exact H1.
    cbn [serve_all serve]. erewrite bind_Returns by (apply stop_correction_run; exact Hl1).
    reflexivity. }
  erewrite bind_Returns by exact Hserve.
  rewrite fast_set_iteration_cancelled by (cbn; first [assumption | reflexivity]).
  destruct (Z.gtb_spec (elapsed t) FAST_SET_MAX_SECONDS) as [Hto|Hok]; cbn.
  - repeat split; try assumption; try discriminate.
    intros Hle. exfalso. unfold FAST_SET_MAX_SECONDS in *. lia.
  - repeat split; try assumption; try discriminate.
    intros _. eexists. split; reflexivity.
Qed.

Lemma fast_set_iteration_after_stop_witness :
  pulses (final_world
            ((serve_all ([ReqFastSet] ++ [ReqStop]) ;;
              fast_set_iteration (mk_Tick [] 0 midnight) 2) (World_requested 5))) =
    pulses (World_requested 5) /\
  A_RELAY (final_world
             ((serve_all ([ReqFastSet] ++ [ReqStop]) ;;
               fast_set_iteration (mk_Tick [] 0 midnight) 2) (World_requested 5))) = false /\
  B_RELAY (final_world
             ((serve_all ([ReqFastSet] ++ [ReqStop]) ;;
               fast_set_iteration (mk_Tick [] 0 midnight) 2) (World_requested 5))) = false /\
  (forall w', (serve_all ([ReqFastSet] ++ [ReqStop]) ;;
               fast_set_iteration (mk_Tick [] 0 midnight) 2) (World_requested 5) <>
              Returns Continue w') /\
  (elapsed (mk_Tick [] 0 midnight) <= FAST_SET_MAX_SECONDS ->
   exists w',
     (serve_all ([ReqFastSet] ++ [ReqStop]) ;;
      fast_set_iteration (mk_Tick [] 0 midnight) 2) (World_requested 5) =
       Returns Return w' /\
     fast_set_status (STATE w') = StCancelled).
Proof.
  apply (fast_set_iteration_after_stop [ReqFastSet] (mk_Tick [] 0 midnight) 2
           (World_requested 5)).
  reflexivity.
Defined.
